(** * Result assembly and snapshot cache of the bird search backend

    A shallow embedding of [src/backend/main.py]: the three cache loaders
    ([get_all_text_data], [get_all_image_data], [get_all_audio_data]), the
    join of a search hit against the cache ([create_comprehensive_result]),
    the de-duplication of hits ([get_unique_birds_from_results]), the cache
    refresh ([refresh_cache]) and the three search endpoints.

    Python objects are dynamically typed, so payloads are finite maps from
    field names to JSON values, exceptions are an explicit error monad, and
    the vector store is an explicit state that answers [scroll] calls. *)

From Stdlib Require Import ZArith String Ascii List Lia Floats.SpecFloat.
From stdpp Require Import gmap strings list fin_maps.
From Equations Require Import Equations.

Set Warnings "-register-all".
Local Open Scope Z_scope.

(** ** Python values and exceptions *)

(** A JSON value as Python's decoder produces it.  Payload objects are
    dictionaries keyed by strings. *)
Inductive value : Type :=
| VNone
| VBool (b : bool)
| VInt (z : Z)
| VFloat (f : spec_float)
| VStr (s : string)
| VList (l : list value)
| VDict (d : gmap string value).

Abbreviation Payload := (gmap string value).

(** The exceptions the modelled code can raise. [StoreError] stands for
    any failure of an external collaborator (network, authentication,
    embedding model). *)
Inductive exn : Type :=
| TypeError
| AttributeError
| IndexError
| StoreError (msg : string)
| HTTPException (status_code : Z).

Inductive result (A : Type) : Type :=
| Ok (a : A)
| Raise (e : exn).
Arguments Ok {A} a.
Arguments Raise {A} e.

#[global] Instance result_ret : MRet result := @Ok.

#[global] Instance result_bind : MBind result :=
  fun A B (k : A -> result B) (m : result A) =>
    match m with
    | Ok a => k a
    | Raise e => Raise e
    end.

#[global] Instance result_fmap : FMap result :=
  fun A B (f : A -> B) (m : result A) =>
    match m with
    | Ok a => Ok (f a)
    | Raise e => Raise e
    end.

(** [try: body / except Exception: handler]. *)
Definition try_except {A : Type} (body : result A) (handler : exn -> A) : A :=
  match body with
  | Ok a => a
  | Raise e => handler e
  end.

(** Truth value of an object, as tested by [if x], [x or y] and [not x]. *)
Definition truthy (v : value) : bool :=
  match v with
  | VNone => false
  | VBool b => b
  | VInt z => negb (z =? 0)
  | VFloat (S754_zero _) => false
  | VFloat _ => true
  | VStr s => negb (String.eqb s EmptyString)
  | VList l => match l with [] => false | _ :: _ => true end
  | VDict d => negb (Nat.eqb (size d) 0)
  end.

(** [a or b]. *)
Definition py_or (a b : value) : value := if truthy a then a else b.

(** [x is None]. *)
Definition is_None (v : value) : bool :=
  match v with VNone => true | _ => false end.

(** Lists and dictionaries have no hash: using one as a dictionary key or
    set member raises [TypeError]. *)
Definition hashable (v : value) : bool :=
  match v with
  | VList _ | VDict _ => false
  | _ => true
  end.

(** Exact integer value of a float, when it has one. *)
Definition float_to_Z (f : spec_float) : option Z :=
  match f with
  | S754_zero _ => Some 0
  | S754_finite s m e =>
      let sgn := if s then (-1) else 1 in
      if 0 <=? e then Some (sgn * (Z.pos m * 2 ^ e))
      else if (Z.pos m) mod (2 ^ (- e)) =? 0
           then Some (sgn * (Z.pos m / 2 ^ (- e)))
           else None
  | _ => None
  end.

(** [==] on floats: numeric, with [nan] different from everything. *)
Definition float_eqb (f g : spec_float) : bool :=
  match f, g with
  | S754_zero _, S754_zero _ => true
  | S754_infinity s, S754_infinity t => Bool.eqb s t
  | S754_finite s m e, S754_finite t n d =>
      let lo := Z.min e d in
      Bool.eqb s t && (Z.pos m * 2 ^ (e - lo) =? Z.pos n * 2 ^ (d - lo))
  | _, _ => false
  end.

(** [==] on the hashable values: [None], strings, and numbers compared by
    numeric value across [bool], [int] and [float] ([True == 1 == 1.0]).
    Two keys that are [==] are the same dictionary key.  Payloads of
    different points are decoded separately, so two [nan] are never the
    same object and never match. *)
Definition py_eq (a b : value) : bool :=
  match a, b with
  | VNone, VNone => true
  | VStr s, VStr t => String.eqb s t
  | VBool x, VBool y => Bool.eqb x y
  | VBool x, VInt z | VInt z, VBool x => Z.b2z x =? z
  | VInt y, VInt z => y =? z
  | VBool x, VFloat f | VFloat f, VBool x =>
      match float_to_Z f with Some z => Z.b2z x =? z | None => false end
  | VInt y, VFloat f | VFloat f, VInt y =>
      match float_to_Z f with Some z => y =? z | None => false end
  | VFloat f, VFloat g => float_eqb f g
  | _, _ => false
  end.

(** ** Python dictionaries and sets keyed by values *)

(** A dictionary keyed by arbitrary hashable values, in insertion order. *)
Definition pydict (V : Type) : Type := list (value * V).

Definition find_key {V : Type} (k : value) (d : pydict V) : option V :=
  snd <$> List.find (fun kv => py_eq (fst kv) k) d.

(** [d.get(k, default)]. *)
Definition dict_get {V : Type} (d : pydict V) (k : value) (dflt : V)
  : result V :=
  if hashable k then Ok (default dflt (find_key k d)) else Raise TypeError.

(** [k in d]. *)
Definition dict_contains {V : Type} (d : pydict V) (k : value) : result bool :=
  if hashable k then Ok (bool_decide (is_Some (find_key k d)))
  else Raise TypeError.

(** Apply [f] to the value stored under the first key equal to [k]. *)
Fixpoint dict_alter {V : Type} (f : V -> V) (k : value) (d : pydict V)
  : pydict V :=
  match d with
  | [] => []
  | (k', v) :: rest =>
      if py_eq k' k then (k', f v) :: rest
      else (k', v) :: dict_alter f k rest
  end.

(** [d[k] = v]: an existing key keeps its place and gets the new value, a
    new key goes to the end. *)
Definition dict_setitem {V : Type} (d : pydict V) (k : value) (v : V)
  : result (pydict V) :=
  present ← dict_contains d k;
  mret (if present : bool then dict_alter (fun _ => v) k d else d ++ [(k, v)]).

(** The pair of statements
    [if k not in d: d[k] = []] and [d[k].append(x)]. *)
Definition dict_append {V : Type} (d : pydict (list V)) (k : value) (x : V)
  : result (pydict (list V)) :=
  present ← dict_contains d k;
  mret (if present : bool then dict_alter (fun l => l ++ [x]) k d
        else d ++ [(k, [x])]).

(** A [set] of values, in insertion order. *)
Definition pyset : Type := list value.

(** [k in s]. *)
Definition set_contains (s : pyset) (k : value) : result bool :=
  if hashable k then Ok (existsb (fun x => py_eq x k) s) else Raise TypeError.

(** [s.add(k)]. *)
Definition set_add (s : pyset) (k : value) : result pyset :=
  present ← set_contains s k;
  mret (if present : bool then s else s ++ [k]).

(** A [for] loop whose body may raise, threading the loop state. *)
Fixpoint for_each {A S : Type} (body : S -> A -> result S) (xs : list A)
  (s : S) : result S :=
  match xs with
  | [] => Ok s
  | x :: rest => s' ← body s x; for_each body rest s'
  end.

(** ** Python strings *)

(** [s.split(sep)] for a separator of one character: never empty. *)
Fixpoint split (sep : ascii) (s : string) : list string :=
  match s with
  | EmptyString => [EmptyString]
  | String c rest =>
      if Ascii.eqb c sep then EmptyString :: split sep rest
      else match split sep rest with
           | [] => [String c EmptyString]
           | w :: ws => String c w :: ws
           end
  end.

(** [l[-1]]. *)
Definition index_last {A : Type} (l : list A) : result A :=
  match last l with
  | Some x => Ok x
  | None => Raise IndexError
  end.

(** [s.replace(old, new)] for [old] and [new] of one character. *)
Fixpoint replace (old new : ascii) (s : string) : string :=
  match s with
  | EmptyString => EmptyString
  | String c rest =>
      String (if Ascii.eqb c old then new else c) (replace old new rest)
  end.

(** A string method called on a value: any other object has no such
    attribute. *)
Definition str_method {A : Type} (v : value) (m : string -> result A)
  : result A :=
  match v with
  | VStr s => m s
  | _ => Raise AttributeError
  end.

Definition backslash : ascii := Ascii.ascii_of_nat 92.
Definition slash : ascii := Ascii.ascii_of_nat 47.
Definition space : ascii := Ascii.ascii_of_nat 32.
Definition underscore : ascii := Ascii.ascii_of_nat 95.

(** ** The vector store *)

(** [payload.get(key)]: the field, or [None] when the key is missing. *)
Definition payload_get (p : Payload) (key : string) : value :=
  default VNone (p !! key).

(** [payload.get(key, dflt)]. *)
Definition payload_get_default (p : Payload) (key : string) (dflt : value)
  : value :=
  default dflt (p !! key).

(** A stored record as [scroll] returns it. *)
Record Record_ : Type := { record_payload : Payload }.

(** A search hit ([ScoredPoint]). *)
Record ScoredPoint : Type := { payload : Payload; score : spec_float }.

(** The store answers the [n]-th [scroll] call it receives, for a
    collection and a page limit, with an error or the page of records
    (the first component of the pair the client returns); it remembers
    the calls it got. *)
Record Store : Type := {
  respond : nat -> string -> Z -> result (list Record_);
  calls : list (string * Z)
}.

(** [qdrant_client.scroll(collection_name=..., limit=..., ...)[0]]. *)
Definition scroll (collection_name : string) (limit : Z) (st : Store)
  : result (list Record_) * Store :=
  (respond st (length (calls st)) collection_name limit,
   {| respond := respond st;
      calls := calls st ++ [(collection_name, limit)] |}).

(** ** The cache loaders *)

Definition audio_base_url : string := "http://localhost:8000/audio/".

(** The playback URL step of [get_all_audio_data]: a copy of the payload,
    with [audio_url] added when [clip_path] is truthy. *)
Definition with_audio_url (p : Payload) : result Payload :=
  if truthy (payload_get p "clip_path") then
    parts ← str_method (payload_get p "clip_path")
              (fun s => Ok (split backslash s));
    tail ← index_last parts;
    filename ← index_last (split slash tail);
    mret (<["audio_url" := VStr (audio_base_url +:+ filename)]> p)
  else mret p.

(** [get_all_text_data]: one record per [bird_id], the last one wins. *)
Definition get_all_text_data (st : Store) : pydict Payload * Store :=
  let '(results, st') := scroll "bird_text_search" 100 st in
  (try_except
     (points ← results;
      for_each
        (fun d point =>
           dict_setitem d (payload_get (record_payload point) "bird_id")
             (record_payload point))
        points [])
     (fun _ => []),
   st').

(** [get_all_image_data]: records grouped by [bird_id], in scroll order. *)
Definition get_all_image_data (st : Store) : pydict (list Payload) * Store :=
  let '(results, st') := scroll "bird_image_search" 1000 st in
  (try_except
     (points ← results;
      for_each
        (fun image_data point =>
           let bird_id := payload_get (record_payload point) "bird_id" in
           dict_append image_data bird_id (record_payload point))
        points [])
     (fun _ => []),
   st').

(** [get_all_audio_data]: as for images, each record with its playback
    URL. *)
Definition get_all_audio_data (st : Store) : pydict (list Payload) * Store :=
  let '(results, st') := scroll "bird_audio_search" 1000 st in
  (try_except
     (points ← results;
      for_each
        (fun audio_data point =>
           let bird_id := payload_get (record_payload point) "bird_id" in
           _ ← dict_contains audio_data bird_id;
           p ← with_audio_url (record_payload point);
           dict_append audio_data bird_id p)
        points [])
     (fun _ => []),
   st').

(** ** The snapshot cache *)

(** The three module-level variables. *)
Record Cache : Type := {
  ALL_TEXT_DATA : pydict Payload;
  ALL_IMAGE_DATA : pydict (list Payload);
  ALL_AUDIO_DATA : pydict (list Payload)
}.

(** The process: the store it talks to and its globals. *)
Record Process : Type := { store : Store; cache : Cache }.

(** The three assignments of [refresh_cache], one statement each. *)
Definition assign_text (p : Process) : Process :=
  let '(d, st) := get_all_text_data (store p) in
  {| store := st;
     cache := {| ALL_TEXT_DATA := d;
                 ALL_IMAGE_DATA := ALL_IMAGE_DATA (cache p);
                 ALL_AUDIO_DATA := ALL_AUDIO_DATA (cache p) |} |}.

Definition assign_image (p : Process) : Process :=
  let '(d, st) := get_all_image_data (store p) in
  {| store := st;
     cache := {| ALL_TEXT_DATA := ALL_TEXT_DATA (cache p);
                 ALL_IMAGE_DATA := d;
                 ALL_AUDIO_DATA := ALL_AUDIO_DATA (cache p) |} |}.

Definition assign_audio (p : Process) : Process :=
  let '(d, st) := get_all_audio_data (store p) in
  {| store := st;
     cache := {| ALL_TEXT_DATA := ALL_TEXT_DATA (cache p);
                 ALL_IMAGE_DATA := ALL_IMAGE_DATA (cache p);
                 ALL_AUDIO_DATA := d |} |}.

(** The body of the [/refresh-cache] response. *)
Record RefreshResponse : Type := {
  message : string;
  count_text : nat;
  count_images : nat;
  count_audio : nat
}.

(** [refresh_cache]. *)
Definition refresh_cache (p : Process) : RefreshResponse * Process :=
  let p1 := assign_text p in
  let p2 := assign_image p1 in
  let p3 := assign_audio p2 in
  ({| message := "Cache refreshed";
      count_text := length (ALL_TEXT_DATA (cache p3));
      count_images := length (ALL_IMAGE_DATA (cache p3));
      count_audio := length (ALL_AUDIO_DATA (cache p3)) |},
   p3).

(** Module start-up: the cache is loaded once, in the same order. *)
Definition startup (st : Store) : Process :=
  let '(t, st1) := get_all_text_data st in
  let '(i, st2) := get_all_image_data st1 in
  let '(a, st3) := get_all_audio_data st2 in
  {| store := st3;
     cache := {| ALL_TEXT_DATA := t; ALL_IMAGE_DATA := i;
                 ALL_AUDIO_DATA := a |} |}.

(** ** The result joiner *)

Definition wiki_base_url : string := "https://en.wikipedia.org/wiki/".

Record ComprehensiveResult : Type := {
  bird_id : value;
  species_name : value;
  scientific_name : value;
  family : value;
  confidence_score : spec_float;
  search_match_type : string;
  text_description : value;
  raw_text_data : Payload;
  habitats : string;
  geographic_regions : string;
  size_ : value;
  ecology : string;
  group_dynamics : string;
  extract : string;
  url : string;
  images : list Payload;
  primary_image : option Payload;
  audio_clips : list Payload;
  primary_audio : option Payload
}.

(** [l[0] if l else None]. *)
Definition first_or_None {A : Type} (l : list A) : option A :=
  match l with
  | [] => None
  | x :: _ => Some x
  end.

(** The [url] entry: built from the cached text record only. *)
Definition wiki_url (text_info : Payload) : result string :=
  if truthy (payload_get text_info "species_name") then
    name ← str_method (payload_get_default text_info "species_name" (VStr ""))
              (fun s => Ok (replace space underscore s));
    mret (wiki_base_url +:+ name)
  else mret EmptyString.

(** [create_comprehensive_result]: [Ok None] is the [return None]. *)
Definition create_comprehensive_result (c : Cache)
  (search_result : ScoredPoint) (search_type : string)
  : result (option ComprehensiveResult) :=
  let bird_id := payload_get (payload search_result) "bird_id" in
  if is_None bird_id then mret None
  else
    text_info ← dict_get (ALL_TEXT_DATA c) bird_id ∅;
    images ← dict_get (ALL_IMAGE_DATA c) bird_id [];
    audio_clips ← dict_get (ALL_AUDIO_DATA c) bird_id [];
    url ← wiki_url text_info;
    mret (Some
      {| bird_id := bird_id;
         species_name :=
           py_or (payload_get (payload search_result) "species_name")
                 (payload_get_default text_info "species_name"
                    (VStr "Unknown"));
         scientific_name :=
           payload_get_default text_info "scientific_name" (VStr "");
         family := payload_get_default text_info "family" (VStr "");
         confidence_score := score search_result;
         search_match_type := search_type;
         text_description :=
           payload_get_default text_info "searchable_text" (VStr "");
         raw_text_data := text_info;
         habitats := "";
         geographic_regions := "";
         size_ := payload_get_default text_info "size" (VStr "");
         ecology := "";
         group_dynamics := "";
         extract := "";
         url := url;
         images := images;
         primary_image := first_or_None images;
         audio_clips := audio_clips;
         primary_audio := first_or_None audio_clips |}).

(** [get_unique_birds_from_results]: the loop state is the set of ids
    seen so far and the results kept so far. *)
Definition unique_step (c : Cache) (search_type : string)
  (acc : pyset * list ComprehensiveResult) (result_ : ScoredPoint)
  : result (pyset * list ComprehensiveResult) :=
  let '(seen_bird_ids, unique_results) := acc in
  let bird_id := payload_get (payload result_) "bird_id" in
  if is_None bird_id then mret acc
  else
    present ← set_contains seen_bird_ids bird_id;
    if present : bool then mret acc
    else
      seen' ← set_add seen_bird_ids bird_id;
      comprehensive_result ← create_comprehensive_result c result_ search_type;
      mret (seen',
            match comprehensive_result with
            | Some r => unique_results ++ [r]
            | None => unique_results
            end).

Definition get_unique_birds_from_results (c : Cache)
  (results : list ScoredPoint) (search_type : string)
  : result (list ComprehensiveResult) :=
  snd <$> for_each (unique_step c search_type) results ([], []).

(** ** The search endpoints *)

Record SearchResponse : Type := {
  results : list ComprehensiveResult;
  total_found : nat;
  search_type_ : string
}.

(** The external collaborators of one request: the embedding of a text
    query, the feature extractors of uploaded files, and the similarity
    search of the store. *)
Record Backend : Type := {
  embed_text : string -> result (list spec_float);
  extract_audio_features : string -> result (list spec_float);
  extract_image_features : string -> result (list spec_float);
  search : string -> list spec_float -> Z -> result (list ScoredPoint)
}.

(** The loop shared by the text and audio endpoints: join every hit and
    keep the results that are not [None]. *)
Definition join_step (c : Cache) (search_type : string)
  (comprehensive_results : list ComprehensiveResult) (hit : ScoredPoint)
  : result (list ComprehensiveResult) :=
  comprehensive_result ← create_comprehensive_result c hit search_type;
  mret (match comprehensive_result with
        | Some r => comprehensive_results ++ [r]
        | None => comprehensive_results
        end).

Definition join_each (c : Cache) (search_type : string)
  (hits : list ScoredPoint) : result (list ComprehensiveResult) :=
  for_each (join_step c search_type) hits [].

(** [l[:k]]. *)
Definition slice_to {A : Type} (l : list A) (k : Z) : list A :=
  if 0 <=? k then take (Z.to_nat k) l
  else take (Z.to_nat (Z.of_nat (length l) + k)) l.

Definition respond_with (rs : list ComprehensiveResult) (search_type : string)
  : SearchResponse :=
  {| results := rs; total_found := length rs; search_type_ := search_type |}.

(** Every exception inside an endpoint becomes an HTTP 500 error. *)
Definition as_http500 {A : Type} (body : result A) : result A :=
  match body with
  | Ok a => Ok a
  | Raise _ => Raise (HTTPException 500)
  end.

(** [search_by_text]. *)
Definition search_by_text (b : Backend) (c : Cache) (query : string)
  (limit : Z) : result SearchResponse :=
  as_http500
    (query_vector ← embed_text b query;
     hits ← search b "bird_text_search" query_vector limit;
     comprehensive_results ← join_each c "text" hits;
     mret (respond_with comprehensive_results "text")).

(** [search_by_audio]. *)
Definition search_by_audio (b : Backend) (c : Cache) (content_type : string)
  (content : string) (limit : Z) : result SearchResponse :=
  as_http500
    (_ ← (if String.prefix "audio/" content_type then Ok tt
          else Raise (HTTPException 400));
     features ← extract_audio_features b content;
     hits ← search b "bird_audio_search" features limit;
     comprehensive_results ← join_each c "audio" hits;
     mret (respond_with comprehensive_results "audio")).

(** [search_by_image]. *)
Definition search_by_image (b : Backend) (c : Cache) (content_type : string)
  (content : string) (limit : Z) : result SearchResponse :=
  as_http500
    (_ ← (if String.prefix "image/" content_type then Ok tt
          else Raise (HTTPException 400));
     features ← extract_image_features b content;
     hits ← search b "bird_image_search" features (limit * 5);
     comprehensive_results ← get_unique_birds_from_results c hits "image";
     mret (respond_with (slice_to comprehensive_results limit) "image")).

(** ** Cache lookups of the join *)

(** The cached text record the join uses for an id: the stored record,
    or the empty dictionary. *)
Definition text_info_of (c : Cache) (id : value) : Payload :=
  default ∅ (find_key id (ALL_TEXT_DATA c)).

Definition images_of (c : Cache) (id : value) : list Payload :=
  default [] (find_key id (ALL_IMAGE_DATA c)).

Definition audio_clips_of (c : Cache) (id : value) : list Payload :=
  default [] (find_key id (ALL_AUDIO_DATA c)).

(** ** Sample data *)

Module Sample.

(** Scores 0.5, 0.75 and 0.875. *)
Definition half : spec_float := S754_finite false 1 (-1).
Definition three_quarters : spec_float := S754_finite false 3 (-2).
Definition seven_eighths : spec_float := S754_finite false 7 (-3).

(** A hit that carries only an id. *)
Definition hit_of (id : Z) (s : spec_float) : ScoredPoint :=
  {| payload := {[ "bird_id" := VInt id ]}; score := s |}.

(** A hit that carries an id and a species name. *)
Definition named_hit (id : Z) (name : string) (s : spec_float)
  : ScoredPoint :=
  {| payload := <[ "species_name" := VStr name ]>
                  {[ "bird_id" := VInt id ]};
     score := s |}.

(** A hit whose payload has no [bird_id]. *)
Definition anonymous_hit : ScoredPoint :=
  {| payload := {[ "species_name" := VStr "Robin" ]}; score := half |}.

Definition text_record (id : Z) (name sci fam : string) : Payload :=
  <[ "family" := VStr fam ]>
    (<[ "scientific_name" := VStr sci ]>
       (<[ "species_name" := VStr name ]> {[ "bird_id" := VInt id ]})).

Definition image_record (id : Z) (path : string) (quality : spec_float)
  : Payload :=
  <[ "quality_score" := VFloat quality ]>
    (<[ "image_path" := VStr path ]> {[ "bird_id" := VInt id ]}).

Definition audio_record (id : Z) (clip_path : string) : Payload :=
  <[ "clip_path" := VStr clip_path ]> {[ "bird_id" := VInt id ]}.

Definition empty_cache : Cache :=
  {| ALL_TEXT_DATA := []; ALL_IMAGE_DATA := []; ALL_AUDIO_DATA := [] |}.

(** Bird 1 is fully known, bird 2 has media only. The first image of
    bird 1 has the lower quality score. *)
Definition small_cache : Cache :=
  {| ALL_TEXT_DATA :=
       [(VInt 1, text_record 1 "House Sparrow" "Passer domesticus"
                   "Passeridae")];
     ALL_IMAGE_DATA :=
       [(VInt 1, [image_record 1 "a.jpg" half;
                  image_record 1 "b.jpg" seven_eighths]);
        (VInt 2, [image_record 2 "c.jpg" three_quarters])];
     ALL_AUDIO_DATA :=
       [(VInt 2, [audio_record 2 "clips/wren_01.wav"])] |}.

End Sample.

(** The same hit with the [species_name] key removed from its payload. *)
Definition without_species_name (hit : ScoredPoint) : ScoredPoint :=
  {| payload := delete "species_name" (payload hit); score := score hit |}.

(** ** Auxiliary notions used in the statements *)

(** The store's data does not change: every call gets the answer the
    first call would get. *)
Definition unchanged_store (st : Store) : Prop :=
  forall (n m : nat) (collection_name : string) (limit : Z),
    respond st n collection_name limit = respond st m collection_name limit.

(** Every call to the store fails. *)
Definition store_down (st : Store) : Prop :=
  forall (n : nat) (collection_name : string) (limit : Z),
    exists e, respond st n collection_name limit = Raise e.

(** Does the character occur in the string? *)
Fixpoint contains_char (c : ascii) (s : string) : bool :=
  match s with
  | EmptyString => false
  | String c' rest => Ascii.eqb c' c || contains_char c rest
  end.

Module SampleStore.

Definition down : Store :=
  {| respond := fun _ _ _ => Raise (StoreError "connection refused");
     calls := [] |}.

(** A catalogue of three birds that stays the same. *)
Definition catalogue (collection_name : string) : list Record_ :=
  if String.eqb collection_name "bird_text_search" then
    [ {| record_payload := Sample.text_record 1 "House Sparrow"
                             "Passer domesticus" "Passeridae" |};
      {| record_payload := Sample.text_record 2 "Barn Owl" "Tyto alba"
                             "Tytonidae" |};
      {| record_payload := Sample.text_record 3 "Winter Wren"
                             "Troglodytes hiemalis" "Troglodytidae" |} ]
  else if String.eqb collection_name "bird_image_search" then
    [ {| record_payload := Sample.image_record 1 "a.jpg" Sample.half |};
      {| record_payload :=
           Sample.image_record 1 "b.jpg" Sample.seven_eighths |} ]
  else if String.eqb collection_name "bird_audio_search" then
    [ {| record_payload :=
           Sample.audio_record 1 "C:\clips\sparrow_01.wav" |};
      {| record_payload := Sample.audio_record 3 "clips/wren_01.wav" |} ]
  else [].

Definition steady : Store :=
  {| respond := fun _ collection_name _ => Ok (catalogue collection_name);
     calls := [] |}.

End SampleStore.

(** ** De-duplication, as the specification words it *)

(** The entity id of a hit. *)
Definition hit_id (hit : ScoredPoint) : value :=
  payload_get (payload hit) "bird_id".

(** Does the hit belong to another entity than [id]? *)
Definition other_entity (id : value) (hit : ScoredPoint) : bool :=
  negb (py_eq id (hit_id hit)).

(** Keep the first occurrence of each entity id: a hit without an id is
    skipped; a hit with an id is kept and every later hit of the same
    entity is discarded. *)
Equations? first_occurrences (hits : list ScoredPoint) : list ScoredPoint
  by wf (length hits) lt :=
  first_occurrences [] := [];
  first_occurrences (hit :: rest) :=
    if is_None (hit_id hit) then first_occurrences rest
    else hit :: first_occurrences (List.filter (other_entity (hit_id hit)) rest).
Proof.
  pose proof (List.filter_length_le (other_entity (hit_id hit)) rest). lia.
Qed.

Module SampleHits.

(** Hits for the ids 5, 3, 5, 7, 3; the second hit of bird 5 has the
    higher score. *)
Definition five_three_five_seven_three : list ScoredPoint :=
  [ Sample.hit_of 5 Sample.half;
    Sample.hit_of 3 Sample.three_quarters;
    Sample.hit_of 5 Sample.seven_eighths;
    Sample.hit_of 7 Sample.half;
    Sample.hit_of 3 Sample.seven_eighths ].

End SampleHits.

(** No two ids of the list are the same entity: each differs from all
    the later ones. *)
Fixpoint distinct_ids (ids : list value) : Prop :=
  match ids with
  | [] => True
  | id :: rest => Forall (fun id' => py_eq id id' = false) rest /\
                  distinct_ids rest
  end.

Module SampleBackend.

(** An audio search that returns two clips of bird 5 and one of
    bird 3; the other collaborators are not reached. *)
Definition two_clips_of_one_bird : Backend :=
  {| embed_text := fun _ => Raise (StoreError "unused");
     extract_audio_features := fun _ => Ok [];
     extract_image_features := fun _ => Ok [];
     search := fun _ _ _ =>
       Ok [Sample.hit_of 5 Sample.seven_eighths;
           Sample.hit_of 5 Sample.three_quarters;
           Sample.hit_of 3 Sample.half] |}.

End SampleBackend.

(** ** The event loop *)

(** Every handler of the application is a coroutine ([async def]) and
    runs on the one event loop of the process: a coroutine that has been
    resumed runs until its next [await] (or its end) before any other
    coroutine is resumed.  What matters of a handler here is the order of
    its accesses to the three globals and of its suspension points. *)
Inductive instr : Type :=
| Store_ (statement : Process -> Process)
| LoadText
| LoadImage
| LoadAudio
| Await.

(** What a handler has read of the three globals so far. *)
Record View : Type := {
  view_text : option (pydict Payload);
  view_image : option (pydict (list Payload));
  view_audio : option (pydict (list Payload))
}.

Definition no_view : View :=
  {| view_text := None; view_image := None; view_audio := None |}.

Record Coroutine : Type := { code : list instr; view : View }.

(** Run a resumed coroutine up to its next suspension point. *)
Fixpoint resume (code : list instr) (p : Process) (v : View)
  : list instr * Process * View :=
  match code with
  | [] => ([], p, v)
  | Await :: rest => (rest, p, v)
  | Store_ statement :: rest => resume rest (statement p) v
  | LoadText :: rest =>
      resume rest p
        {| view_text := Some (ALL_TEXT_DATA (cache p));
           view_image := view_image v; view_audio := view_audio v |}
  | LoadImage :: rest =>
      resume rest p
        {| view_text := view_text v;
           view_image := Some (ALL_IMAGE_DATA (cache p));
           view_audio := view_audio v |}
  | LoadAudio :: rest =>
      resume rest p
        {| view_text := view_text v; view_image := view_image v;
           view_audio := Some (ALL_AUDIO_DATA (cache p)) |}
  end.

Record Loop : Type := { process : Process; tasks : list Coroutine }.

(** The event loop resumes task [i]. *)
Definition turn (l : Loop) (i : nat) : Loop :=
  match tasks l !! i with
  | None => l
  | Some t =>
      let '(code', p', v') := resume (code t) (process l) (view t) in
      {| process := p';
         tasks := <[i := {| code := code'; view := v' |}]> (tasks l) |}
  end.

(** A run of the event loop: the tasks resumed, in order. *)
Definition run (schedule : list nat) (l : Loop) : Loop :=
  foldl turn l schedule.

(** [refresh_cache]: three assignments, no [await]. *)
Definition refresh_cache_code : list instr :=
  [Store_ assign_text; Store_ assign_image; Store_ assign_audio].

(** The reads of [create_comprehensive_result] (and of [get_bird_info]). *)
Definition join_code : list instr := [LoadText; LoadImage; LoadAudio].

(** [search_by_text] joins each of its [hits] hits and never awaits;
    [search_by_audio] and [search_by_image] first await the upload. *)
Definition search_by_text_code (hits : nat) : list instr :=
  mjoin (replicate hits join_code).

Definition search_by_upload_code (hits : nat) : list instr :=
  Await :: mjoin (replicate hits join_code).

Definition is_load (i : instr) : bool :=
  match i with
  | LoadText | LoadImage | LoadAudio => true
  | _ => false
  end.

(** A reader: a handler that, after some suspension points, reads the
    globals in one go and writes none. *)
Definition reader_code (c : list instr) : Prop :=
  exists (awaits : nat) (body : list instr),
    c = replicate awaits Await ++ body /\ forallb is_load body = true.

Definition fresh_reader (t : Coroutine) : Prop :=
  reader_code (code t) /\ view t = no_view.

(** Everything the view holds comes from the snapshot [c]. *)
Definition view_from (c : Cache) (v : View) : Prop :=
  (forall d, view_text v = Some d -> d = ALL_TEXT_DATA c) /\
  (forall d, view_image v = Some d -> d = ALL_IMAGE_DATA c) /\
  (forall d, view_audio v = Some d -> d = ALL_AUDIO_DATA c).

(** A reader between two turns of the loop that refreshes the process
    [old]: it has read nothing yet, or it is done and has read one
    snapshot. *)
Definition reader_ok (old : Process) (t : Coroutine) : Prop :=
  fresh_reader t \/
  (code t = [] /\
   (view_from (cache old) (view t) \/
    view_from (cache (snd (refresh_cache old))) (view t))).

(** The loop between two turns: the refresh has not run and the process
    is the old one, or it has run to its end and the process is the
    refreshed one. *)
Definition loop_ok (old : Process) (l : Loop) : Prop :=
  exists r readers,
    tasks l = r :: readers /\
    Forall (reader_ok old) readers /\
    ((process l = old /\ r = {| code := refresh_cache_code;
                                view := no_view |}) \/
     (process l = snd (refresh_cache old) /\ code r = [])).

(** The loop at the start: the refresh handler and the readers, none of
    them resumed yet. *)
Definition refresh_among (p : Process) (readers : list Coroutine) : Loop :=
  {| process := p;
     tasks := {| code := refresh_cache_code; view := no_view |} :: readers |}.

(** For contrast: a refresh that would await between its assignments. *)
Definition suspending_refresh_code : list instr :=
  [Store_ assign_text; Await; Store_ assign_image; Await;
   Store_ assign_audio].

Module SampleLoop.

Definition old_process : Process :=
  {| store := SampleStore.steady; cache := Sample.small_cache |}.

Definition readers : list Coroutine :=
  [ {| code := search_by_upload_code 2; view := no_view |};
    {| code := search_by_text_code 1; view := no_view |} ].

End SampleLoop.

(** ** The detail and listing endpoints *)

(** [except HTTPException: raise] followed by
    [except Exception: raise HTTPException(500)]. *)
Definition reraise_http {A : Type} (body : result A) : result A :=
  match body with
  | Ok a => Ok a
  | Raise (HTTPException status_code) => Raise (HTTPException status_code)
  | Raise _ => Raise (HTTPException 500)
  end.

(** Truth value of a list object. *)
Definition list_truthy {A : Type} (l : list A) : bool :=
  match l with [] => false | _ :: _ => true end.

Module BirdDetail.

(** The body of the [/bird/{bird_id}] response. *)
Record t : Type := {
  bird_id : Z;
  species_name : value;
  scientific_name : value;
  family : value;
  text_information : Payload;
  raw_text_data : Payload;
  images : list Payload;
  audio_clips : list Payload;
  count_images : nat;
  count_audio_clips : nat
}.

End BirdDetail.

(** [get_bird_info]: the path parameter is an [int]. *)
Definition get_bird_info (c : Cache) (bird_id : Z) : result BirdDetail.t :=
  reraise_http
    (text_info ← dict_get (ALL_TEXT_DATA c) (VInt bird_id) ∅;
     images ← dict_get (ALL_IMAGE_DATA c) (VInt bird_id) [];
     audio_clips ← dict_get (ALL_AUDIO_DATA c) (VInt bird_id) [];
     if negb (truthy (VDict text_info) || list_truthy images
              || list_truthy audio_clips)
     then Raise (HTTPException 404)
     else
       mret {| BirdDetail.bird_id := bird_id;
               BirdDetail.species_name :=
                 payload_get_default text_info "species_name"
                   (VStr "Unknown");
               BirdDetail.scientific_name :=
                 payload_get_default text_info "scientific_name" (VStr "");
               BirdDetail.family :=
                 payload_get_default text_info "family" (VStr "");
               BirdDetail.text_information := text_info;
               BirdDetail.raw_text_data := text_info;
               BirdDetail.images := images;
               BirdDetail.audio_clips := audio_clips;
               BirdDetail.count_images := length images;
               BirdDetail.count_audio_clips := length audio_clips |}).

Module BirdRecord.

(** One entry of the [/birds/all] response. *)
Record t : Type := {
  bird_id : value;
  species_name : value;
  scientific_name : value;
  family : value;
  text_description : value;
  raw_text_data : Payload;
  size_ : value;
  url : string;
  images : list Payload;
  primary_image : option Payload;
  audio_clips : list Payload;
  primary_audio : option Payload
}.

End BirdRecord.

Record AllBirdsResponse : Type := {
  all_results : list BirdRecord.t;
  all_total_found : nat;
  all_search_type : string
}.

(** The body of the loop of [get_all_birds], for one item of
    [ALL_TEXT_DATA.items()]. *)
Definition bird_record (c : Cache) (all_birds : list BirdRecord.t)
  (item : value * Payload) : result (list BirdRecord.t) :=
  let '(bird_id, text_info) := item in
  images ← dict_get (ALL_IMAGE_DATA c) bird_id [];
  audio_clips ← dict_get (ALL_AUDIO_DATA c) bird_id [];
  url ← wiki_url text_info;
  mret (all_birds ++
        [ {| BirdRecord.bird_id := bird_id;
             BirdRecord.species_name :=
               payload_get_default text_info "species_name" (VStr "Unknown");
             BirdRecord.scientific_name :=
               payload_get_default text_info "scientific_name" (VStr "");
             BirdRecord.family :=
               payload_get_default text_info "family" (VStr "");
             BirdRecord.text_description :=
               payload_get_default text_info "searchable_text" (VStr "");
             BirdRecord.raw_text_data := text_info;
             BirdRecord.size_ :=
               payload_get_default text_info "size" (VStr "");
             BirdRecord.url := url;
             BirdRecord.images := images;
             BirdRecord.primary_image := first_or_None images;
             BirdRecord.audio_clips := audio_clips;
             BirdRecord.primary_audio := first_or_None audio_clips |} ]).

(** [get_all_birds]. *)
Definition get_all_birds (c : Cache) : result AllBirdsResponse :=
  as_http500
    (all_birds ← for_each (bird_record c) (ALL_TEXT_DATA c) [];
     mret {| all_results := all_birds;
             all_total_found := length all_birds;
             all_search_type := "all_records" |}).

(** ** Further notions used in the statements *)

(** The keys on which [==] is plain equality: [None], integers and
    strings. *)
Definition plain_key (v : value) : bool :=
  match v with
  | VNone | VInt _ | VStr _ => true
  | _ => false
  end.

(** The [bird_id] of a stored record. *)
Definition record_id (point : Record_) : value :=
  payload_get (record_payload point) "bird_id".

(** A page of records as a store that always answers with it. *)
Definition store_of_page (page : string -> list Record_) : Store :=
  {| respond := fun _ collection_name _ => Ok (page collection_name);
     calls := [] |}.

Module SampleMalformed.

(** A text record whose species name is a number, and a cache built on
    it. *)
Definition numeric_name_cache : Cache :=
  {| ALL_TEXT_DATA :=
       [(VInt 4, <[ "species_name" := VInt 17 ]> {[ "bird_id" := VInt 4 ]})];
     ALL_IMAGE_DATA := [];
     ALL_AUDIO_DATA := [] |}.

(** A page whose second record has a list for [bird_id]. *)
Definition list_id_page (collection_name : string) : list Record_ :=
  [ {| record_payload := Sample.image_record 1 "a.jpg" Sample.half |};
    {| record_payload := {[ "bird_id" := VList [VInt 1; VInt 2] ]} |};
    {| record_payload := Sample.image_record 2 "c.jpg" Sample.half |} ].

(** A page whose second record has a number for [clip_path]. *)
Definition numeric_clip_page (collection_name : string) : list Record_ :=
  [ {| record_payload := Sample.audio_record 1 "clips/a.wav" |};
    {| record_payload :=
         <[ "clip_path" := VInt 3 ]> {[ "bird_id" := VInt 2 ]} |} ].

End SampleMalformed.

Module SampleBackend2.


End SampleBackend2.

(** The keys of a dictionary are hashable and no two of them are
    equal. *)
Definition keys_ok {V : Type} (d : pydict V) : Prop :=
  distinct_ids (map fst d) /\ Forall (fun k => hashable k = true) (map fst d).

(** The records of a page that belong to the entity [id], in page
    order. *)
Definition records_of (id : value) (points : list Record_) : list Payload :=
  map record_payload (List.filter (fun p => py_eq (record_id p) id) points).

Module SamplePage.

(** A text page with two records for bird 1 and a record without id. *)
Definition repeated_text (collection_name : string) : list Record_ :=
  [ {| record_payload := Sample.text_record 1 "House Sparrow"
                           "Passer domesticus" "Passeridae" |};
    {| record_payload := Sample.text_record 2 "Barn Owl" "Tyto alba"
                           "Tytonidae" |};
    {| record_payload := {[ "species_name" := VStr "Stray" ]} |};
    {| record_payload := Sample.text_record 1 "Eurasian Tree Sparrow"
                           "Passer montanus" "Passeridae" |} ].

End SamplePage.

(** A [clip_path] that is truthy but not a string. *)
Definition bad_clip_path (p : Payload) : bool :=
  truthy (payload_get p "clip_path") &&
  match payload_get p "clip_path" with VStr _ => false | _ => true end.

(** The payload as the audio loader stores it, for a record on which
    the playback URL step does not fail. *)
Definition audio_payload (p : Payload) : Payload :=
  try_except (with_audio_url p) (fun _ => p).

Module SampleBackend3.

(** A search that returns a hit for bird 1 and a hit for bird 4. *)
Definition birds_one_and_four : Backend :=
  {| embed_text := fun _ => Ok [];
     extract_audio_features := fun _ => Ok [];
     extract_image_features := fun _ => Ok [];
     search := fun _ _ _ =>
       Ok [Sample.hit_of 1 Sample.seven_eighths;
           Sample.hit_of 4 Sample.half] |}.

End SampleBackend3.

(** * Properties *)

(** ** The join *)

Lemma is_None_true (v : value) : is_None v = true <-> v = VNone.
Proof. destruct v; simpl; split; congruence. Qed.

Lemma is_None_false (v : value) : is_None v = false <-> v <> VNone.
Proof. destruct v; simpl; split; congruence. Qed.

Lemma create_no_id (c : Cache) (hit : ScoredPoint) (ty : string) :
  payload_get (payload hit) "bird_id" = VNone ->
  create_comprehensive_result c hit ty = Ok None.
Proof. intros H. unfold create_comprehensive_result. now rewrite H. Qed.

Lemma create_unhashable (c : Cache) (hit : ScoredPoint) (ty : string) :
  hashable (payload_get (payload hit) "bird_id") = false ->
  create_comprehensive_result c hit ty = Raise TypeError.
Proof.
  intros H. unfold create_comprehensive_result, dict_get.
  destruct (payload_get (payload hit) "bird_id"); try discriminate H;
    reflexivity.
Qed.

(** What the join returns for a hit that has a hashable id: the outcome is
    decided by the [url] entry alone. *)
Lemma create_with_id (c : Cache) (hit : ScoredPoint) (ty : string) :
  let id := payload_get (payload hit) "bird_id" in
  id <> VNone -> hashable id = true ->
  create_comprehensive_result c hit ty =
  u ← wiki_url (text_info_of c id);
  mret (Some
    {| bird_id := id;
       species_name :=
         py_or (payload_get (payload hit) "species_name")
               (payload_get_default (text_info_of c id) "species_name"
                  (VStr "Unknown"));
       scientific_name :=
         payload_get_default (text_info_of c id) "scientific_name" (VStr "");
       family := payload_get_default (text_info_of c id) "family" (VStr "");
       confidence_score := score hit;
       search_match_type := ty;
       text_description :=
         payload_get_default (text_info_of c id) "searchable_text" (VStr "");
       raw_text_data := text_info_of c id;
       habitats := "";
       geographic_regions := "";
       size_ := payload_get_default (text_info_of c id) "size" (VStr "");
       ecology := "";
       group_dynamics := "";
       extract := "";
       url := u;
       images := images_of c id;
       primary_image := first_or_None (images_of c id);
       audio_clips := audio_clips_of c id;
       primary_audio := first_or_None (audio_clips_of c id) |}).
Proof.
  intros id Hid Hh. unfold create_comprehensive_result. fold id.
  apply is_None_false in Hid. rewrite Hid.
  unfold dict_get. rewrite Hh. reflexivity.
Qed.

Lemma wiki_url_empty : wiki_url ∅ = Ok EmptyString.
Proof. reflexivity. Qed.

Lemma wiki_url_falsy (text_info : Payload) :
  truthy (payload_get text_info "species_name") = false ->
  wiki_url text_info = Ok EmptyString.
Proof. intros H. unfold wiki_url. now rewrite H. Qed.

Lemma wiki_url_str (text_info : Payload) (s : string) :
  text_info !! "species_name" = Some (VStr s) -> s <> EmptyString ->
  wiki_url text_info = Ok (wiki_base_url +:+ replace space underscore s).
Proof.
  intros H Hs. unfold wiki_url, payload_get, payload_get_default.
  rewrite H. simpl.
  destruct (String.eqb_spec s EmptyString) as [->|_]; [congruence|reflexivity].
Qed.

(** A join that succeeds for a hit with an id returns a record. *)
Lemma create_Ok_inv (c : Cache) (hit : ScoredPoint) (ty : string)
  (o : option ComprehensiveResult) :
  create_comprehensive_result c hit ty = Ok o ->
  payload_get (payload hit) "bird_id" <> VNone ->
  exists r, o = Some r /\
    bird_id r = payload_get (payload hit) "bird_id" /\
    hashable (bird_id r) = true /\
    wiki_url (text_info_of c (bird_id r)) = Ok (url r) /\
    species_name r =
      py_or (payload_get (payload hit) "species_name")
            (payload_get_default (text_info_of c (bird_id r)) "species_name"
               (VStr "Unknown")) /\
    scientific_name r =
      payload_get_default (text_info_of c (bird_id r)) "scientific_name"
        (VStr "") /\
    family r =
      payload_get_default (text_info_of c (bird_id r)) "family" (VStr "") /\
    confidence_score r = score hit /\
    images r = images_of c (bird_id r) /\
    primary_image r = first_or_None (images r) /\
    audio_clips r = audio_clips_of c (bird_id r) /\
    primary_audio r = first_or_None (audio_clips r).
Proof.
  intros H Hid.
  destruct (hashable (payload_get (payload hit) "bird_id")) eqn:Hh.
  - rewrite create_with_id in H by assumption.
    destruct (wiki_url _) as [u|e] eqn:Hu; simpl in H; [|discriminate].
    injection H as <-. eexists. split; [reflexivity|]. simpl.
    rewrite Hh, Hu. repeat split; reflexivity.
  - rewrite create_unhashable in H by assumption. discriminate.
Qed.

(** C1: the join returns [None] exactly for the hits whose payload has
    no entity id; for a hit whose (hashable) id is absent from the text
    cache and whose payload has no species name, it returns a record,
    without raising, with species name ["Unknown"] and empty
    [scientific_name] and [family]. *)
Theorem join_null_iff_no_id_and_defaults (c : Cache) (hit : ScoredPoint)
  (ty : string) :
  (create_comprehensive_result c hit ty = Ok None <->
   payload_get (payload hit) "bird_id" = VNone) /\
  (payload_get (payload hit) "bird_id" <> VNone ->
   hashable (payload_get (payload hit) "bird_id") = true ->
   find_key (payload_get (payload hit) "bird_id") (ALL_TEXT_DATA c) = None ->
   truthy (payload_get (payload hit) "species_name") = false ->
   exists r,
     create_comprehensive_result c hit ty = Ok (Some r) /\
     bird_id r = payload_get (payload hit) "bird_id" /\
     species_name r = VStr "Unknown" /\
     scientific_name r = VStr "" /\
     family r = VStr "" /\
     text_description r = VStr "" /\
     url r = EmptyString).
Proof.
  split.
  - split.
    + intros H.
      destruct (decide (is_None (payload_get (payload hit) "bird_id") = true))
        as [Hn|Hn]; [now apply is_None_true|].
      apply not_true_is_false, is_None_false in Hn.
      destruct (create_Ok_inv _ _ _ _ H Hn) as (r & Hr & _). discriminate.
    + apply create_no_id.
  - intros Hid Hh Habs Hname.
    rewrite create_with_id by assumption.
    unfold text_info_of. rewrite Habs. simpl. rewrite wiki_url_empty. simpl.
    eexists. split; [reflexivity|]. simpl.
    unfold py_or. rewrite Hname. repeat split; reflexivity.
Qed.

Lemma join_null_iff_no_id_and_defaults_witness :
  create_comprehensive_result Sample.small_cache Sample.anonymous_hit
    "image" = Ok None /\
  create_comprehensive_result Sample.small_cache
    (Sample.hit_of 7 Sample.half) "image" <> Ok None /\
  exists r,
    create_comprehensive_result Sample.small_cache
      (Sample.hit_of 7 Sample.half) "image" = Ok (Some r) /\
    bird_id r = VInt 7 /\
    species_name r = VStr "Unknown" /\
    scientific_name r = VStr "" /\
    family r = VStr "" /\
    text_description r = VStr "" /\
    url r = EmptyString.
Proof.
  destruct (join_null_iff_no_id_and_defaults Sample.small_cache
              (Sample.hit_of 7 Sample.half) "image") as [Hiff Hdef].
  destruct (join_null_iff_no_id_and_defaults Sample.small_cache
              Sample.anonymous_hit "image") as [Hnull _].
  split; [|split].
  - apply Hnull. reflexivity.
  - intros H. apply Hiff in H. vm_compute in H. discriminate H.
  - apply Hdef; vm_compute; congruence.
Defined.

Lemma create_Some_inv (c : Cache) (hit : ScoredPoint) (ty : string)
  (r : ComprehensiveResult) :
  create_comprehensive_result c hit ty = Ok (Some r) ->
  bird_id r = payload_get (payload hit) "bird_id" /\
  bird_id r <> VNone /\
  hashable (bird_id r) = true /\
  wiki_url (text_info_of c (bird_id r)) = Ok (url r) /\
  species_name r =
    py_or (payload_get (payload hit) "species_name")
          (payload_get_default (text_info_of c (bird_id r)) "species_name"
             (VStr "Unknown")) /\
  confidence_score r = score hit /\
  images r = images_of c (bird_id r) /\
  primary_image r = first_or_None (images r) /\
  audio_clips r = audio_clips_of c (bird_id r) /\
  primary_audio r = first_or_None (audio_clips r).
Proof.
  intros H.
  assert (Hid : payload_get (payload hit) "bird_id" <> VNone).
  { intros Hn. rewrite (create_no_id _ _ _ Hn) in H. discriminate. }
  destruct (create_Ok_inv _ _ _ _ H Hid)
    as (r' & [= <-] & Hb & Hh & Hu & Hs & _ & _ & Hc & Hi & Hp & Ha & Hq).
  rewrite Hb. rewrite Hb in Hh, Hu, Hs, Hi, Ha. tauto.
Qed.

(** The join raises only on an id that cannot be a dictionary key or on
    a cached species name that is not a string. *)
Lemma create_raises_only (c : Cache) (hit : ScoredPoint) (ty : string)
  (e : exn) :
  create_comprehensive_result c hit ty = Raise e ->
  hashable (payload_get (payload hit) "bird_id") = false \/
  (exists v,
     text_info_of c (payload_get (payload hit) "bird_id") !! "species_name"
       = Some v /\
     truthy v = true /\ forall s, v <> VStr s).
Proof.
  intros H.
  destruct (hashable (payload_get (payload hit) "bird_id")) eqn:Hh;
    [right|now left].
  destruct (is_None (payload_get (payload hit) "bird_id")) eqn:Hn.
  { apply is_None_true in Hn. rewrite (create_no_id _ _ _ Hn) in H.
    discriminate. }
  apply is_None_false in Hn.
  rewrite create_with_id in H by assumption.
  unfold wiki_url, payload_get, payload_get_default in H.
  destruct (text_info_of c _ !! "species_name") as [v|] eqn:Hv;
    simpl in H; [|discriminate].
  destruct (truthy v) eqn:Ht; simpl in H; [|discriminate].
  exists v. repeat split; try assumption.
  intros s ->. simpl in H. discriminate.
Qed.

Lemma first_or_None_head {A : Type} (l : list A) : first_or_None l = head l.
Proof. now destruct l. Qed.

(** C8: in every joined result the image (audio) list is the cached list
    of the entity as stored, and [primary_image] ([primary_audio]) is its
    element at index 0, or [None] when the list is empty. *)
Theorem primary_media_is_first_cached (c : Cache) (hit : ScoredPoint)
  (ty : string) (r : ComprehensiveResult) :
  create_comprehensive_result c hit ty = Ok (Some r) ->
  images r = images_of c (bird_id r) /\
  primary_image r = images_of c (bird_id r) !! 0%nat /\
  (images_of c (bird_id r) = [] -> primary_image r = None) /\
  audio_clips r = audio_clips_of c (bird_id r) /\
  primary_audio r = audio_clips_of c (bird_id r) !! 0%nat /\
  (audio_clips_of c (bird_id r) = [] -> primary_audio r = None).
Proof.
  intros H.
  destruct (create_Some_inv _ _ _ _ H)
    as (_ & _ & _ & _ & _ & _ & Hi & Hp & Ha & Hq).
  rewrite Hp, Hq, Hi, Ha, !first_or_None_head, !head_lookup.
  repeat split; try reflexivity; now intros ->.
Qed.

(** In the sample cache the first image of bird 1 scores 0.5 and the
    second 0.875: the primary image is still the first. *)
Lemma primary_media_is_first_cached_witness :
  exists r,
    create_comprehensive_result Sample.small_cache
      (Sample.hit_of 1 Sample.half) "image" = Ok (Some r) /\
    images r = [Sample.image_record 1 "a.jpg" Sample.half;
                Sample.image_record 1 "b.jpg" Sample.seven_eighths] /\
    primary_image r = Some (Sample.image_record 1 "a.jpg" Sample.half) /\
    primary_audio r = None.
Proof.
  eexists. split; [vm_compute; reflexivity|].
  match goal with
  | |- images ?r = _ /\ _ =>
      destruct (primary_media_is_first_cached Sample.small_cache
                  (Sample.hit_of 1 Sample.half) "image" r)
        as (Hi & Hp & _ & _ & Hq & _); [vm_compute; reflexivity|]
  end.
  rewrite Hi, Hp, Hq. repeat split.
Defined.

Lemma payload_get_delete_ne (p : Payload) (k k' : string) :
  k <> k' -> payload_get (delete k p) k' = payload_get p k'.
Proof. intros H. unfold payload_get. now rewrite lookup_delete_ne. Qed.

Lemma payload_get_delete_eq (p : Payload) (k : string) :
  payload_get (delete k p) k = VNone.
Proof. unfold payload_get. now rewrite lookup_delete_eq. Qed.

(** A falsy species name in the payload counts for nothing: the join
    gives what it gives without the key. *)
Lemma create_falsy_species_name (c : Cache) (hit : ScoredPoint) (ty : string) :
  truthy (payload_get (payload hit) "species_name") = false ->
  create_comprehensive_result c hit ty =
  create_comprehensive_result c (without_species_name hit) ty.
Proof.
  intros Hf. unfold create_comprehensive_result, without_species_name. simpl.
  rewrite payload_get_delete_ne by discriminate.
  rewrite payload_get_delete_eq.
  unfold py_or. rewrite Hf. reflexivity.
Qed.

(** C9: a hit whose payload has [species_name] equal to the empty string
    is joined exactly as the same hit without the key; the species name
    of the result is the cached text record's, and ["Unknown"] when the
    record has none.  The join does return a record in both cases: for
    a hit with an id that can be a key, it returns a record named by the
    cached string, or ["Unknown"] when the cached record has no species
    name. *)
Theorem empty_species_name_falls_back (c : Cache) (hit : ScoredPoint)
  (ty : string) :
  payload hit !! "species_name" = Some (VStr "") ->
  create_comprehensive_result c hit ty =
    create_comprehensive_result c (without_species_name hit) ty /\
  (forall r, create_comprehensive_result c hit ty = Ok (Some r) ->
     species_name r =
       payload_get_default (text_info_of c (bird_id r)) "species_name"
         (VStr "Unknown") /\
     (forall v, text_info_of c (bird_id r) !! "species_name" = Some v ->
                species_name r = v) /\
     (text_info_of c (bird_id r) !! "species_name" = None ->
      species_name r = VStr "Unknown")) /\
  (hit_id hit <> VNone -> hashable (hit_id hit) = true ->
   (forall s, text_info_of c (hit_id hit) !! "species_name" = Some (VStr s) ->
      exists r,
        create_comprehensive_result c hit ty = Ok (Some r) /\
        create_comprehensive_result c (without_species_name hit) ty
          = Ok (Some r) /\
        bird_id r = hit_id hit /\ species_name r = VStr s) /\
   (text_info_of c (hit_id hit) !! "species_name" = None ->
      exists r,
        create_comprehensive_result c hit ty = Ok (Some r) /\
        create_comprehensive_result c (without_species_name hit) ty
          = Ok (Some r) /\
        bird_id r = hit_id hit /\ species_name r = VStr "Unknown")).
Proof.
  intros He.
  assert (Hf : truthy (payload_get (payload hit) "species_name") = false).
  { unfold payload_get. now rewrite He. }
  pose proof (create_falsy_species_name c hit ty Hf) as Hsame.
  split; [exact Hsame|]. split.
  - intros r H.
    destruct (create_Some_inv _ _ _ _ H) as (_ & _ & _ & _ & Hs & _).
    unfold py_or in Hs. rewrite Hf in Hs. rewrite Hs.
    unfold payload_get_default.
    split; [reflexivity|]. split; [intros v ->|intros ->]; reflexivity.
  - unfold hit_id. intros Hid Hh. rewrite <- Hsame.
    rewrite create_with_id by assumption.
    unfold py_or. rewrite Hf. split.
    + intros s Hs.
      assert (Hu : exists u, wiki_url (text_info_of c
                     (payload_get (payload hit) "bird_id")) = Ok u).
      { destruct (String.eqb_spec s EmptyString) as [->|Hne].
        - exists EmptyString. apply wiki_url_falsy.
          unfold payload_get in *. now rewrite Hs.
        - exists (wiki_base_url +:+ replace space underscore s).
          apply wiki_url_str; assumption. }
      destruct Hu as [u ->]. cbn [mbind result_bind mret result_ret].
      eexists. split; [reflexivity|]. split; [reflexivity|].
      cbn [bird_id species_name]. unfold payload_get_default.
      now rewrite Hs.
    + intros Hn. rewrite wiki_url_falsy
        by (unfold payload_get in *; now rewrite Hn).
      cbn [mbind result_bind mret result_ret].
      eexists. split; [reflexivity|]. split; [reflexivity|].
      cbn [bird_id species_name]. unfold payload_get_default.
      now rewrite Hn.
Qed.

(** Bird 1 has a text record named House Sparrow, bird 2 has none: the
    join of a hit with an empty species name returns a record in both
    cases, named House Sparrow and Unknown. *)
Lemma empty_species_name_falls_back_witness :
  create_comprehensive_result Sample.small_cache
    (Sample.named_hit 1 "" Sample.half) "text" =
  create_comprehensive_result Sample.small_cache
    (Sample.hit_of 1 Sample.half) "text" /\
  (exists r,
     create_comprehensive_result Sample.small_cache
       (Sample.named_hit 1 "" Sample.half) "text" = Ok (Some r) /\
     bird_id r = VInt 1 /\
     species_name r = VStr "House Sparrow") /\
  (exists r,
     create_comprehensive_result Sample.small_cache
       (Sample.named_hit 2 "" Sample.half) "text" = Ok (Some r) /\
     bird_id r = VInt 2 /\
     species_name r = VStr "Unknown").
Proof.
  destruct (empty_species_name_falls_back Sample.small_cache
              (Sample.named_hit 1 "" Sample.half) "text")
    as (Heq & _ & Hex); [reflexivity|].
  destruct (empty_species_name_falls_back Sample.small_cache
              (Sample.named_hit 2 "" Sample.half) "text")
    as (_ & _ & Hex2); [reflexivity|].
  split; [|split].
  - rewrite Heq. vm_compute. reflexivity.
  - destruct Hex as [Hstr _]; [discriminate|reflexivity|].
    destruct (Hstr "House Sparrow"%string) as (r & Hr & _ & Hb & Hs);
      [reflexivity|].
    exists r. auto.
  - destruct Hex2 as [_ Hnone]; [discriminate|reflexivity|].
    destruct Hnone as (r & Hr & _ & Hb & Hs); [reflexivity|].
    exists r. auto.
Defined.

(** C10: the [url] of a joined result comes from the cached text record
    of the entity alone: the Wikipedia address of its species name with
    spaces turned into underscores, and the empty string when the record
    has no (or a falsy) species name, in particular whenever the id is
    absent from the text cache, whatever species name the hit and the
    result carry. *)
Theorem url_from_text_cache_only (c : Cache) (hit : ScoredPoint)
  (ty : string) (r : ComprehensiveResult) :
  create_comprehensive_result c hit ty = Ok (Some r) ->
  wiki_url (text_info_of c (bird_id r)) = Ok (url r) /\
  (forall s, text_info_of c (bird_id r) !! "species_name" = Some (VStr s) ->
     s <> EmptyString ->
     url r = wiki_base_url +:+ replace space underscore s) /\
  (find_key (bird_id r) (ALL_TEXT_DATA c) = None ->
   url r = EmptyString /\
   species_name r =
     py_or (payload_get (payload hit) "species_name") (VStr "Unknown")).
Proof.
  intros H.
  destruct (create_Some_inv _ _ _ _ H) as (_ & _ & _ & Hu & Hs & _).
  split; [assumption|]. split.
  - intros s Hsome Hne. rewrite (wiki_url_str _ _ Hsome Hne) in Hu.
    now injection Hu.
  - intros Habs. unfold text_info_of in Hu, Hs. rewrite Habs in Hu, Hs.
    simpl in Hu, Hs. rewrite wiki_url_empty in Hu. injection Hu as <-.
    split; [reflexivity|]. exact Hs.
Qed.

(** Bird 7 is not in the text cache: the hit's own species name is kept
    and the url is empty. Bird 1 is: the url is built from the cached
    name, not from the hit's. *)
Lemma url_from_text_cache_only_witness :
  (exists r,
     create_comprehensive_result Sample.small_cache
       (Sample.named_hit 7 "Barn Owl" Sample.half) "text" = Ok (Some r) /\
     species_name r = VStr "Barn Owl" /\ url r = EmptyString) /\
  (exists r,
     create_comprehensive_result Sample.small_cache
       (Sample.named_hit 1 "Barn Owl" Sample.half) "text" = Ok (Some r) /\
     species_name r = VStr "Barn Owl" /\
     url r = "https://en.wikipedia.org/wiki/House_Sparrow"%string).
Proof.
  split.
  - eexists. split; [vm_compute; reflexivity|].
    match goal with
    | |- species_name ?r = _ /\ _ =>
        destruct (url_from_text_cache_only Sample.small_cache
                    (Sample.named_hit 7 "Barn Owl" Sample.half) "text" r)
          as (_ & _ & Habs); [vm_compute; reflexivity|];
        destruct Habs as [Hu Hs]; [reflexivity|]
    end.
    rewrite Hu, Hs. split; reflexivity.
  - eexists. split; [vm_compute; reflexivity|].
    match goal with
    | |- species_name ?r = _ /\ _ =>
        destruct (url_from_text_cache_only Sample.small_cache
                    (Sample.named_hit 1 "Barn Owl" Sample.half) "text" r)
          as (_ & Hstr & _); [vm_compute; reflexivity|]
    end.
    split; [reflexivity|].
    rewrite (Hstr "House Sparrow"%string); [reflexivity|reflexivity|discriminate].
Defined.

(** ** The cache loaders and the refresh *)

Lemma get_all_text_data_calls (st : Store) :
  calls (snd (get_all_text_data st)) =
  calls st ++ [("bird_text_search"%string, 100)].
Proof. reflexivity. Qed.

Lemma get_all_image_data_calls (st : Store) :
  calls (snd (get_all_image_data st)) =
  calls st ++ [("bird_image_search"%string, 1000)].
Proof. reflexivity. Qed.

Lemma get_all_audio_data_calls (st : Store) :
  calls (snd (get_all_audio_data st)) =
  calls st ++ [("bird_audio_search"%string, 1000)].
Proof. reflexivity. Qed.

(** C6: when the scroll of its collection fails, whatever the error, each
    loader returns the empty mapping (it returns: the error is not
    propagated) after that one call to the store (it does not call
    again); with the store down, start-up still yields a process, with
    three empty mappings. *)
Theorem loaders_empty_on_scroll_failure (st : Store) :
  (forall e,
     respond st (length (calls st)) "bird_text_search" 100 = Raise e ->
     get_all_text_data st = ([], snd (scroll "bird_text_search" 100 st)) /\
     calls (snd (get_all_text_data st)) =
       calls st ++ [("bird_text_search"%string, 100)]) /\
  (forall e,
     respond st (length (calls st)) "bird_image_search" 1000 = Raise e ->
     get_all_image_data st = ([], snd (scroll "bird_image_search" 1000 st)) /\
     calls (snd (get_all_image_data st)) =
       calls st ++ [("bird_image_search"%string, 1000)]) /\
  (forall e,
     respond st (length (calls st)) "bird_audio_search" 1000 = Raise e ->
     get_all_audio_data st = ([], snd (scroll "bird_audio_search" 1000 st)) /\
     calls (snd (get_all_audio_data st)) =
       calls st ++ [("bird_audio_search"%string, 1000)]) /\
  (store_down st ->
   cache (startup st) = Sample.empty_cache /\
   calls (store (startup st)) =
     calls st ++ [("bird_text_search"%string, 100);
                  ("bird_image_search"%string, 1000);
                  ("bird_audio_search"%string, 1000)]).
Proof.
  repeat split.
  - unfold get_all_text_data, scroll. simpl. now rewrite H.
  - unfold get_all_image_data, scroll. simpl. now rewrite H.
  - unfold get_all_audio_data, scroll. simpl. now rewrite H.
  - unfold startup, get_all_text_data, get_all_image_data,
      get_all_audio_data, scroll. simpl.
    destruct (H (length (calls st)) "bird_text_search"%string 100) as [e1 ->].
    destruct (H (length (calls st ++ [("bird_text_search"%string, 100)]))
                "bird_image_search"%string 1000) as [e2 ->].
    destruct (H (length ((calls st ++ [("bird_text_search"%string, 100)])
                           ++ [("bird_image_search"%string, 1000)]))
                "bird_audio_search"%string 1000) as [e3 ->].
    reflexivity.
  - unfold startup, get_all_text_data, get_all_image_data,
      get_all_audio_data, scroll. simpl.
    now rewrite <- !app_assoc.
Qed.

Lemma loaders_empty_on_scroll_failure_witness :
  get_all_text_data SampleStore.down =
    ([], snd (scroll "bird_text_search" 100 SampleStore.down)) /\
  calls (snd (get_all_audio_data SampleStore.down)) =
    [("bird_audio_search"%string, 1000)] /\
  cache (startup SampleStore.down) = Sample.empty_cache.
Proof.
  destruct (loaders_empty_on_scroll_failure SampleStore.down)
    as (Ht & _ & Ha & Hs).
  split; [|split].
  - apply (Ht (StoreError "connection refused")). reflexivity.
  - apply (Ha (StoreError "connection refused")). reflexivity.
  - apply Hs. intros n c l. eexists. reflexivity.
Defined.

Lemma refresh_cache_cache (p : Process) :
  cache (snd (refresh_cache p)) =
  {| ALL_TEXT_DATA := fst (get_all_text_data (store p));
     ALL_IMAGE_DATA :=
       fst (get_all_image_data (snd (get_all_text_data (store p))));
     ALL_AUDIO_DATA :=
       fst (get_all_audio_data
              (snd (get_all_image_data
                      (snd (get_all_text_data (store p)))))) |}.
Proof. reflexivity. Qed.

Lemma refresh_cache_response (p : Process) :
  fst (refresh_cache p) =
  {| message := "Cache refreshed";
     count_text := length (ALL_TEXT_DATA (cache (snd (refresh_cache p))));
     count_images := length (ALL_IMAGE_DATA (cache (snd (refresh_cache p))));
     count_audio := length (ALL_AUDIO_DATA (cache (snd (refresh_cache p)))) |}.
Proof. reflexivity. Qed.

(** With an unchanged store a loader's mapping does not depend on when it
    is called. *)
Lemma loaders_unchanged (st st' : Store) :
  unchanged_store st -> respond st' = respond st ->
  fst (get_all_text_data st') = fst (get_all_text_data st) /\
  fst (get_all_image_data st') = fst (get_all_image_data st) /\
  fst (get_all_audio_data st') = fst (get_all_audio_data st).
Proof.
  intros Hu Hr.
  unfold get_all_text_data, get_all_image_data, get_all_audio_data, scroll.
  simpl. rewrite Hr.
  rewrite !(Hu (length (calls st')) (length (calls st))). auto.
Qed.

(** C5: with an unchanged store response, a second refresh leaves the
    three mappings as the first one left them, and reports the same
    sizes. *)
Theorem refresh_idempotent (p : Process) :
  unchanged_store (store p) ->
  cache (snd (refresh_cache (snd (refresh_cache p)))) =
    cache (snd (refresh_cache p)) /\
  fst (refresh_cache (snd (refresh_cache p))) = fst (refresh_cache p).
Proof.
  intros Hu.
  assert (Hc : cache (snd (refresh_cache (snd (refresh_cache p)))) =
               cache (snd (refresh_cache p))).
  { rewrite !refresh_cache_cache.
    set (s1 := snd (get_all_text_data (store p))).
    set (s2 := snd (get_all_image_data s1)).
    set (s3 := store (snd (refresh_cache p))).
    set (s4 := snd (get_all_text_data s3)).
    set (s5 := snd (get_all_image_data s4)).
    destruct (loaders_unchanged (store p) s1 Hu eq_refl) as (_ & Hi1 & _).
    destruct (loaders_unchanged (store p) s2 Hu eq_refl) as (_ & _ & Ha2).
    destruct (loaders_unchanged (store p) s3 Hu eq_refl) as (Ht3 & _ & _).
    destruct (loaders_unchanged (store p) s4 Hu eq_refl) as (_ & Hi4 & _).
    destruct (loaders_unchanged (store p) s5 Hu eq_refl) as (_ & _ & Ha5).
    now rewrite Ht3, Hi4, Ha5, Hi1, Ha2. }
  split; [exact Hc|].
  rewrite (refresh_cache_response (snd (refresh_cache p))),
    (refresh_cache_response p).
  now rewrite Hc.
Qed.

Lemma refresh_idempotent_witness :
  let p := startup SampleStore.steady in
  cache (snd (refresh_cache (snd (refresh_cache p)))) =
    cache (snd (refresh_cache p)) /\
  fst (refresh_cache (snd (refresh_cache p))) = fst (refresh_cache p) /\
  count_text (fst (refresh_cache p)) = 3%nat /\
  count_images (fst (refresh_cache p)) = 1%nat /\
  count_audio (fst (refresh_cache p)) = 2%nat.
Proof.
  intros p.
  destruct (refresh_idempotent p) as [Hc Hr].
  - intros n m c l. reflexivity.
  - split; [exact Hc|]. split; [exact Hr|]. vm_compute. auto.
Defined.

(** ** The playback URL *)

Lemma append_assoc (a b c : string) : (a +:+ b) +:+ c = a +:+ (b +:+ c).
Proof.
  induction a as [|x a IH]; [reflexivity|].
  change (String x ((a +:+ b) +:+ c) = String x (a +:+ (b +:+ c))).
  now f_equal.
Qed.

Lemma contains_char_app (c : ascii) (a b : string) :
  contains_char c (a +:+ b) = contains_char c a || contains_char c b.
Proof.
  induction a as [|x a IH]; [reflexivity|].
  change (Ascii.eqb x c || contains_char c (a +:+ b) =
          Ascii.eqb x c || contains_char c a || contains_char c b).
  now rewrite IH, orb_assoc.
Qed.

(** The shape of [s.split(sep)]: a first piece without the separator and,
    when there are more pieces, a last piece without the separator that
    follows the last separator of [s]. *)
Lemma split_shape (sep : ascii) (s : string) :
  exists w ws,
    split sep s = w :: ws /\
    contains_char sep w = false /\
    match last ws with
    | None => ws = [] /\ s = w
    | Some f =>
        contains_char sep f = false /\
        exists d, s = d +:+ String sep f
    end.
Proof.
  induction s as [|c rest (w & ws & Hsplit & Hw & Hlast)]; simpl.
  - exists EmptyString, []. cbn. auto.
  - rewrite Hsplit. destruct (Ascii.eqb_spec c sep) as [->|Hne].
    + exists EmptyString, (w :: ws). split; [reflexivity|].
      split; [reflexivity|]. rewrite last_cons.
      destruct (last ws) as [f|].
      * destruct Hlast as (Hf & d & ->). split; [assumption|].
        now exists (String sep d).
      * destruct Hlast as (-> & ->). split; [assumption|].
        now exists EmptyString.
    + exists (String c w), ws. split; [reflexivity|]. split.
      * simpl. rewrite Hw. now destruct (Ascii.eqb_spec c sep).
      * destruct (last ws) as [f|].
        -- destruct Hlast as (Hf & d & ->). split; [assumption|].
           now exists (String c d).
        -- destruct Hlast as (-> & ->). auto.
Qed.

(** [s.split(sep)[-1]] never fails; it is the part of [s] after the last
    separator, or all of [s]. *)
Lemma split_last (sep : ascii) (s : string) :
  exists f,
    index_last (split sep s) = Ok f /\
    contains_char sep f = false /\
    (s = f \/ exists d, s = d +:+ String sep f).
Proof.
  destruct (split_shape sep s) as (w & ws & Hsplit & Hw & Hlast).
  unfold index_last. rewrite Hsplit, last_cons.
  destruct (last ws) as [f|].
  - destruct Hlast as (Hf & d & ->). exists f. eauto.
  - destruct Hlast as (-> & ->). exists w. auto.
Qed.

(** C7: for a record whose [clip_path] is a non-empty string, the
    playback URL is the audio base URL followed by the final segment of
    the path, where both the back-slash and the forward-slash separate
    segments: the path is a directory part followed by the file name, the
    file name has neither separator, and the directory part is empty or
    ends in one.  For [C:\clips\sparrow_01.wav] the file name is
    [sparrow_01.wav]. *)
Theorem playback_url_is_last_segment :
  (forall (p : Payload) (path : string),
     p !! "clip_path" = Some (VStr path) -> path <> EmptyString ->
     exists dir filename,
       with_audio_url p =
         Ok (<["audio_url" := VStr (audio_base_url +:+ filename)]> p) /\
       path = dir +:+ filename /\
       contains_char backslash filename = false /\
       contains_char slash filename = false /\
       (dir = EmptyString \/
        exists d, dir = d +:+ String backslash EmptyString \/
                  dir = d +:+ String slash EmptyString)) /\
  with_audio_url (Sample.audio_record 1 "C:\clips\sparrow_01.wav") =
    Ok (<["audio_url" := VStr "http://localhost:8000/audio/sparrow_01.wav"]>
          (Sample.audio_record 1 "C:\clips\sparrow_01.wav")).
Proof.
  split; [|vm_compute; reflexivity].
  intros p path Hp Hne.
  unfold with_audio_url, payload_get. rewrite Hp. simpl.
  destruct (String.eqb_spec path EmptyString) as [?|_]; [contradiction|].
  simpl.
  destruct (split_last backslash path) as (tail & Ht & Hb & Htail).
  destruct (split_last slash tail) as (filename & Hf & Hs & Hfile).
  unfold mbind, result_bind. rewrite Ht, Hf.
  change (mret ?x) with (Ok x).
  assert (Hbf : contains_char backslash filename = false).
  { destruct Hfile as [->|(d & ->)]; [assumption|].
    rewrite contains_char_app in Hb. apply orb_false_elim in Hb as [_ Hb].
    simpl in Hb. exact Hb. }
  assert (Hcut : forall a c f, a +:+ String c f
                               = (a +:+ String c EmptyString) +:+ f).
  { intros a c f. now rewrite append_assoc. }
  destruct Htail as [->|(d & ->)]; destruct Hfile as [<-|(d' & ->)].
  - exists EmptyString, tail. auto 10.
  - exists (d' +:+ String slash EmptyString), filename.
    rewrite <- Hcut. eauto 10.
  - exists (d +:+ String backslash EmptyString), tail.
    rewrite <- Hcut. eauto 10.
  - exists ((d +:+ String backslash d') +:+ String slash EmptyString), filename.
    split; [reflexivity|]. split.
    + now rewrite <- Hcut, append_assoc.
    + eauto 10.
Qed.

(** Through the loader: the two sample clips, one stored with
    back-slashes and one with forward slashes. *)
Lemma playback_url_is_last_segment_witness :
  (exists dir filename,
     with_audio_url (Sample.audio_record 3 "clips/wren_01.wav") =
       Ok (<["audio_url" := VStr (audio_base_url +:+ filename)]>
             (Sample.audio_record 3 "clips/wren_01.wav")) /\
     "clips/wren_01.wav"%string = dir +:+ filename /\
     contains_char backslash filename = false /\
     contains_char slash filename = false) /\
  fst (get_all_audio_data SampleStore.steady) =
    [(VInt 1,
      [<["audio_url" := VStr "http://localhost:8000/audio/sparrow_01.wav"]>
         (Sample.audio_record 1 "C:\clips\sparrow_01.wav")]);
     (VInt 3,
      [<["audio_url" := VStr "http://localhost:8000/audio/wren_01.wav"]>
         (Sample.audio_record 3 "clips/wren_01.wav")])].
Proof.
  split.
  - destruct (proj1 playback_url_is_last_segment
                (Sample.audio_record 3 "clips/wren_01.wav")
                "clips/wren_01.wav"%string)
      as (dir & filename & Hu & Hp & Hb & Hs & _);
      [reflexivity|discriminate|].
    exists dir, filename. auto.
  - vm_compute. reflexivity.
Defined.

(** ** De-duplication *)

Lemma py_eq_unhashable (a k : value) : hashable k = false -> py_eq a k = false.
Proof. destruct k; try discriminate; now destruct a. Qed.

Lemma existsb_py_eq_unhashable (seen : pyset) (k : value) :
  hashable k = false -> existsb (fun x => py_eq x k) seen = false.
Proof.
  intros H. induction seen as [|s seen IH]; simpl; [reflexivity|].
  now rewrite py_eq_unhashable, IH.
Qed.

Lemma filter_filter_andb {A : Type} (p q : A -> bool) (l : list A) :
  List.filter p (List.filter q l) = List.filter (fun x => q x && p x) l.
Proof.
  induction l as [|x l IH]; simpl; [reflexivity|].
  destruct (q x); simpl; [destruct (p x)|]; now rewrite IH.
Qed.

(** The four ways through the body of the loop. *)
Lemma unique_step_no_id (c : Cache) (ty : string) (seen : pyset)
  (acc : list ComprehensiveResult) (hit : ScoredPoint) :
  is_None (hit_id hit) = true ->
  unique_step c ty (seen, acc) hit = Ok (seen, acc).
Proof. intros H. unfold unique_step. fold (hit_id hit). now rewrite H. Qed.

Lemma unique_step_unhashable (c : Cache) (ty : string) (seen : pyset)
  (acc : list ComprehensiveResult) (hit : ScoredPoint) :
  is_None (hit_id hit) = false -> hashable (hit_id hit) = false ->
  unique_step c ty (seen, acc) hit = Raise TypeError.
Proof.
  intros H Hh. unfold unique_step, set_contains. fold (hit_id hit).
  now rewrite H, Hh.
Qed.

Lemma unique_step_seen (c : Cache) (ty : string) (seen : pyset)
  (acc : list ComprehensiveResult) (hit : ScoredPoint) :
  is_None (hit_id hit) = false -> hashable (hit_id hit) = true ->
  existsb (fun x => py_eq x (hit_id hit)) seen = true ->
  unique_step c ty (seen, acc) hit = Ok (seen, acc).
Proof.
  intros H Hh Hs. unfold unique_step, set_contains. fold (hit_id hit).
  now rewrite H, Hh, Hs.
Qed.

Lemma unique_step_new (c : Cache) (ty : string) (seen : pyset)
  (acc : list ComprehensiveResult) (hit : ScoredPoint) :
  is_None (hit_id hit) = false -> hashable (hit_id hit) = true ->
  existsb (fun x => py_eq x (hit_id hit)) seen = false ->
  unique_step c ty (seen, acc) hit =
  (fun acc' => (seen ++ [hit_id hit], acc')) <$> join_step c ty acc hit.
Proof.
  intros H Hh Hs. unfold unique_step, set_add, set_contains, join_step.
  fold (hit_id hit). rewrite H, Hh, Hs.
  cbn [mbind result_bind mret result_ret].
  now destruct (create_comprehensive_result c hit ty).
Qed.

Lemma join_step_unhashable (c : Cache) (ty : string)
  (acc : list ComprehensiveResult) (hit : ScoredPoint) :
  hashable (hit_id hit) = false -> join_step c ty acc hit = Raise TypeError.
Proof. intros H. unfold join_step. now rewrite create_unhashable. Qed.

(** The loop of [get_unique_birds_from_results], started with some ids
    already seen, joins the first occurrences among the hits of entities
    not seen yet. *)
Lemma unique_loop_first_occurrences (c : Cache) (ty : string)
  (hits : list ScoredPoint) (seen : pyset) (acc : list ComprehensiveResult) :
  snd <$> for_each (unique_step c ty) hits (seen, acc) =
  for_each (join_step c ty)
    (first_occurrences
       (List.filter
          (fun h => negb (existsb (fun x => py_eq x (hit_id h)) seen)) hits))
    acc.
Proof.
  revert seen acc. induction hits as [|hit rest IH]; intros seen acc.
  - simpl. now simp first_occurrences.
  - cbn [for_each List.filter].
    destruct (is_None (hit_id hit)) eqn:Hnone.
    + rewrite unique_step_no_id by assumption.
      cbn [mbind result_bind]. rewrite IH.
      destruct (negb (existsb _ seen)); [|reflexivity].
      simp first_occurrences. now rewrite Hnone.
    + destruct (hashable (hit_id hit)) eqn:Hh.
      * destruct (existsb (fun x => py_eq x (hit_id hit)) seen) eqn:Hseen;
          cbn [negb].
        -- rewrite unique_step_seen by assumption.
           cbn [mbind result_bind]. apply IH.
        -- rewrite unique_step_new by assumption.
           simp first_occurrences. rewrite Hnone. cbn [for_each].
           destruct (join_step c ty acc hit) as [acc'|e]; [|reflexivity].
           cbn [fmap result_fmap mbind result_bind].
           rewrite IH, filter_filter_andb.
           f_equal. f_equal. apply List.filter_ext. intros h.
           rewrite existsb_app. simpl. unfold other_entity.
           now rewrite orb_false_r, negb_orb.
      * rewrite unique_step_unhashable by assumption.
        rewrite existsb_py_eq_unhashable by assumption.
        cbn [negb]. simp first_occurrences. rewrite Hnone.
        cbn [for_each]. now rewrite join_step_unhashable.
Qed.

Lemma filter_true {A : Type} (l : list A) :
  List.filter (fun _ => true) l = l.
Proof. induction l as [|x l IH]; simpl; congruence. Qed.

(** The de-duplication is the join of the first occurrences. *)
Lemma get_unique_birds_refines (c : Cache) (hits : list ScoredPoint)
  (ty : string) :
  get_unique_birds_from_results c hits ty =
  join_each c ty (first_occurrences hits).
Proof.
  unfold get_unique_birds_from_results, join_each.
  rewrite unique_loop_first_occurrences. simpl existsb. cbn [negb].
  now rewrite filter_true.
Qed.

(** The kept hits are hits of the input, in the input's order. *)
Lemma first_occurrences_sublist (hits : list ScoredPoint) :
  sublist (first_occurrences hits) hits.
Proof.
  funelim (first_occurrences hits); simp first_occurrences.
  - constructor.
  - destruct (is_None (hit_id hit)).
    + now constructor.
    + constructor.
      match goal with
      | IH : sublist _ (List.filter _ _) |- _ =>
          etransitivity; [exact IH|]
      end.
      clear. induction rest as [|h rest IH]; simpl; [constructor|].
      destruct (other_entity _ h); now constructor.
Qed.

(** ** The search endpoints *)

Lemma first_occurrences_have_ids (hits : list ScoredPoint) :
  Forall (fun h => is_None (hit_id h) = false) (first_occurrences hits).
Proof.
  funelim (first_occurrences hits); simp first_occurrences.
  - constructor.
  - destruct (is_None (hit_id hit)) eqn:Hn; [assumption|].
    constructor; assumption.
Qed.

Lemma first_occurrences_distinct (hits : list ScoredPoint) :
  distinct_ids (map hit_id (first_occurrences hits)).
Proof.
  funelim (first_occurrences hits); simp first_occurrences.
  - exact I.
  - destruct (is_None (hit_id hit)) eqn:Hn; [assumption|].
    simpl. split; [|assumption].
    apply Forall_forall. intros id Hin.
    apply list_elem_of_In, in_map_iff in Hin as (h & <- & Hin).
    apply list_elem_of_In in Hin.
    pose proof (first_occurrences_sublist
                  (List.filter (other_entity (hit_id hit)) rest)) as Hsub.
    apply (sublist_submseteq _ _) in Hsub.
    eapply elem_of_submseteq in Hin; [|exact Hsub].
    apply list_elem_of_In, List.filter_In in Hin as [_ Hother].
    unfold other_entity in Hother. now apply negb_true_iff in Hother.
Qed.

Lemma join_step_Ok (c : Cache) (ty : string)
  (acc acc' : list ComprehensiveResult) (hit : ScoredPoint) :
  join_step c ty acc hit = Ok acc' -> is_None (hit_id hit) = false ->
  exists r, acc' = acc ++ [r] /\ bird_id r = hit_id hit /\
            create_comprehensive_result c hit ty = Ok (Some r).
Proof.
  unfold join_step. intros H Hn. apply is_None_false in Hn.
  destruct (create_comprehensive_result c hit ty) as [o|e] eqn:Hc;
    cbn [mbind result_bind mret result_ret] in H; [|discriminate].
  destruct (create_Ok_inv _ _ _ _ Hc Hn) as (r & -> & Hid & _).
  injection H as <-. eauto.
Qed.

(** Joining hits that all have an id gives one result per hit, with the
    hit's id. *)
Lemma join_loop_ids (c : Cache) (ty : string) (hits : list ScoredPoint)
  (acc rs : list ComprehensiveResult) :
  Forall (fun h => is_None (hit_id h) = false) hits ->
  for_each (join_step c ty) hits acc = Ok rs ->
  map bird_id rs = map bird_id acc ++ map hit_id hits.
Proof.
  revert acc. induction hits as [|h hits IH]; intros acc Hall H.
  - simpl in H. injection H as <-. now rewrite app_nil_r.
  - apply Forall_cons in Hall as [Hh Hall]. cbn [for_each] in H.
    destruct (join_step c ty acc h) as [acc'|e] eqn:Hj;
      cbn [mbind result_bind] in H; [|discriminate].
    destruct (join_step_Ok _ _ _ _ _ Hj Hh) as (r & -> & Hid & _).
    rewrite (IH _ Hall H), map_app. simpl. rewrite Hid.
    now rewrite <- app_assoc.
Qed.

Lemma distinct_ids_take (n : nat) (ids : list value) :
  distinct_ids ids -> distinct_ids (take n ids).
Proof.
  revert n. induction ids as [|id ids IH]; intros [|n] H; simpl; auto.
  destruct H as [Hhd Htl]. split; [|now apply IH].
  eapply Forall_forall. intros x Hx.
  eapply Forall_forall in Hhd; [exact Hhd|].
  eapply elem_of_submseteq; [exact Hx|].
  apply sublist_submseteq, sublist_take.
Qed.

Lemma map_slice_to {A B : Type} (f : A -> B) (l : list A) (k : Z) :
  map f (slice_to l k) = slice_to (map f l) k.
Proof.
  unfold slice_to. rewrite length_map.
  destruct (0 <=? k); symmetry; apply firstn_map.
Qed.

(** What [get_unique_birds_from_results] returns has pairwise different
    entity ids. *)
Lemma get_unique_birds_distinct (c : Cache) (hits : list ScoredPoint)
  (ty : string) (rs : list ComprehensiveResult) :
  get_unique_birds_from_results c hits ty = Ok rs ->
  map bird_id rs = map hit_id (first_occurrences hits) /\
  distinct_ids (map bird_id rs).
Proof.
  intros H.
  assert (Hids : map bird_id rs = map hit_id (first_occurrences hits)).
  { rewrite get_unique_birds_refines in H. unfold join_each in H.
    now apply (join_loop_ids _ _ _ _ _ (first_occurrences_have_ids hits))
      in H. }
  split; [exact Hids|]. rewrite Hids. apply first_occurrences_distinct.
Qed.

(** C3: the de-duplication joins exactly the first occurrence of each
    entity id: the kept hits are hits of the input in input order, no two
    of them of the same entity; on the ids [5, 3, 5, 7, 3] it joins the
    first, second and fourth hit, so that the later hit of bird 5 is
    dropped although it scores higher. *)
Theorem dedup_keeps_first_occurrences :
  (forall (c : Cache) (hits : list ScoredPoint) (ty : string),
     get_unique_birds_from_results c hits ty =
       join_each c ty (first_occurrences hits) /\
     sublist (first_occurrences hits) hits /\
     distinct_ids (map hit_id (first_occurrences hits)) /\
     forall rs, get_unique_birds_from_results c hits ty = Ok rs ->
                map bird_id rs = map hit_id (first_occurrences hits)) /\
  first_occurrences SampleHits.five_three_five_seven_three =
    [Sample.hit_of 5 Sample.half;
     Sample.hit_of 3 Sample.three_quarters;
     Sample.hit_of 7 Sample.half] /\
  (map (fun r => (bird_id r, confidence_score r)) <$>
     get_unique_birds_from_results Sample.small_cache
       SampleHits.five_three_five_seven_three "image") =
    Ok [(VInt 5, Sample.half); (VInt 3, Sample.three_quarters);
        (VInt 7, Sample.half)].
Proof.
  split; [|split; vm_compute; reflexivity].
  intros c hits ty. split; [apply get_unique_birds_refines|].
  split; [apply first_occurrences_sublist|].
  split; [apply first_occurrences_distinct|].
  intros rs H. now apply get_unique_birds_distinct in H.
Qed.

(** The image endpoint asks the store for five times the requested
    number of hits, and answers with results of pairwise different
    entities, at most [limit] of them. *)
Lemma search_by_image_distinct (b : Backend) (c : Cache)
  (content_type content : string) (limit : Z) (resp : SearchResponse) :
  search_by_image b c content_type content limit = Ok resp ->
  distinct_ids (map bird_id (results resp)) /\
  (0 <= limit -> Z.of_nat (length (results resp)) <= limit) /\
  total_found resp = length (results resp) /\
  exists features hits,
    search b "bird_image_search" features (limit * 5) = Ok hits /\
    map bird_id (results resp) =
      slice_to (map hit_id (first_occurrences hits)) limit.
Proof.
  unfold search_by_image, as_http500. intros H.
  destruct (String.prefix "image/" content_type);
    cbn [mbind result_bind] in H; [|discriminate].
  destruct (extract_image_features b content) as [features|];
    cbn [mbind result_bind] in H; [|discriminate].
  destruct (search b "bird_image_search" features (limit * 5))
    as [hits|] eqn:Hsearch; cbn [mbind result_bind] in H; [|discriminate].
  destruct (get_unique_birds_from_results c hits "image") as [rs|] eqn:Hu;
    simpl in H; [|discriminate].
  injection H as <-. simpl.
  destruct (get_unique_birds_distinct _ _ _ _ Hu) as [Hids Hd].
  rewrite map_slice_to. repeat split.
  - unfold slice_to. destruct (0 <=? limit); now apply distinct_ids_take.
  - intros Hl. unfold slice_to.
    destruct (Z.leb_spec 0 limit); [|lia].
    rewrite length_take. lia.
  - exists features, hits. now rewrite Hids.
Qed.

(** C4 does not hold of the audio endpoint: it joins every hit, so two
    clips of one bird give two results for that bird. *)
Theorem search_by_audio_repeats_entity :
  exists resp r1 r2 r3,
    search_by_audio SampleBackend.two_clips_of_one_bird Sample.small_cache
      "audio/wav" "" 12 = Ok resp /\
    results resp = [r1; r2; r3] /\
    bird_id r1 = VInt 5 /\ bird_id r2 = VInt 5 /\ bird_id r3 = VInt 3 /\
    ~ distinct_ids (map bird_id (results resp)).
Proof.
  do 4 eexists. split; [vm_compute; reflexivity|].
  simpl. repeat split.
  intros [H _]. apply Forall_cons in H as [H _]. vm_compute in H.
  discriminate H.
Qed.

(** ** Refresh and concurrent readers *)

Lemma resume_refresh_cache (p : Process) (v : View) :
  resume refresh_cache_code p v = ([], snd (refresh_cache p), v).
Proof. reflexivity. Qed.

Lemma refresh_cache_calls (p : Process) :
  calls (store (snd (refresh_cache p))) =
  calls (store p) ++ [("bird_text_search"%string, 100);
                      ("bird_image_search"%string, 1000);
                      ("bird_audio_search"%string, 1000)].
Proof.
  unfold refresh_cache, assign_audio, assign_image, assign_text,
    get_all_text_data, get_all_image_data, get_all_audio_data, scroll.
  simpl. now rewrite <- !app_assoc.
Qed.

Lemma view_from_no_view (c : Cache) : view_from c no_view.
Proof. repeat split; intros d H; discriminate H. Qed.

(** A run of loads ends the coroutine, leaves the process alone and
    reads from the current globals only. *)
Lemma resume_loads (body : list instr) (p : Process) (v : View) :
  forallb is_load body = true -> view_from (cache p) v ->
  exists v', resume body p v = ([], p, v') /\ view_from (cache p) v'.
Proof.
  revert v. induction body as [|i body IH]; intros v Hb Hv.
  - exists v. auto.
  - simpl in Hb. apply andb_true_iff in Hb as [Hi Hb].
    destruct Hv as (Ht & Him & Ha).
    destruct i; try discriminate Hi; simpl; apply IH; try assumption;
      repeat split; simpl; try assumption; intros d [= <-]; reflexivity.
Qed.

Lemma resume_await (awaits : nat) (body : list instr) (p : Process)
  (v : View) :
  resume (replicate (S awaits) Await ++ body) p v =
  (replicate awaits Await ++ body, p, v).
Proof. reflexivity. Qed.

Section Atomicity.

Variable old : Process.

Let new : Process := snd (refresh_cache old).

Lemma reader_turn (p : Process) (t : Coroutine) :
  reader_ok old t -> p = old \/ p = new ->
  exists code' v',
    resume (code t) p (view t) = (code', p, v') /\
    reader_ok old {| code := code'; view := v' |}.
Proof.
  intros [[(awaits & body & Hc & Hb) Hv]|[Hc Hv]] Hp.
  - rewrite Hc, Hv. destruct awaits as [|awaits].
    + destruct (resume_loads body p no_view Hb (view_from_no_view _))
        as (v' & Hr & Hv').
      exists [], v'. split; [exact Hr|]. right. split; [reflexivity|].
      simpl. destruct Hp as [->| ->]; auto.
    + rewrite resume_await. do 2 eexists. split; [reflexivity|].
      left. split; [|reflexivity]. now exists awaits, body.
  - rewrite Hc. exists [], (view t). split; [reflexivity|].
    right. auto.
Qed.

Lemma loop_ok_turn (l : Loop) (i : nat) :
  loop_ok old l -> loop_ok old (turn l i).
Proof.
  intros (r & readers & Ht & Hall & Hphase). unfold turn. rewrite Ht.
  destruct i as [|i].
  - change ((r :: readers) !! 0%nat) with (Some r). cbv beta iota.
    destruct Hphase as [[Hp ->]|[Hp Hc]].
    + cbn [code view]. rewrite resume_refresh_cache, Hp.
      eexists _, readers. split; [reflexivity|]. split; [assumption|].
      right. auto.
    + rewrite Hc. cbn [resume].
      eexists _, readers. split; [reflexivity|]. split; [assumption|].
      right. auto.
  - change ((r :: readers) !! S i) with (readers !! i).
    destruct (readers !! i) as [t|] eqn:Hi.
    + assert (Hok : reader_ok old t).
      { eapply Forall_lookup_1; eassumption. }
      assert (Hp : process l = old \/ process l = new) by tauto.
      destruct (reader_turn (process l) t Hok Hp)
        as (code' & v' & -> & Hok').
      eexists r, _. split; [reflexivity|]. split.
      * now apply Forall_insert.
      * exact Hphase.
    + exists r, readers. rewrite Ht. auto.
Qed.

Lemma loop_ok_run (schedule : list nat) (l : Loop) :
  loop_ok old l -> loop_ok old (run schedule l).
Proof.
  revert l. induction schedule as [|i schedule IH]; intros l Hl.
  - exact Hl.
  - apply IH, loop_ok_turn, Hl.
Qed.

Lemma loop_ok_start (readers : list Coroutine) :
  Forall fresh_reader readers -> loop_ok old (refresh_among old readers).
Proof.
  intros H. eexists _, readers. split; [reflexivity|]. split.
  - eapply Forall_impl; [exact H|]. intros t Ht. now left.
  - left. auto.
Qed.

Lemma loop_ok_views (l : Loop) :
  loop_ok old l ->
  (cache (process l) = cache old \/ cache (process l) = cache new) /\
  Forall (fun t => view_from (cache old) (view t) \/
                   view_from (cache new) (view t)) (tail (tasks l)).
Proof.
  intros (r & readers & Ht & Hall & Hphase). split.
  - destruct Hphase as [[-> _]|[-> _]]; auto.
  - rewrite Ht. simpl. eapply Forall_impl; [exact Hall|].
    intros t [[_ Hv]|[_ Hv]]; [|exact Hv].
    left. rewrite Hv. apply view_from_no_view.
Qed.

Lemma turn_refresh_process (l : Loop) :
  loop_ok old l -> process (turn l 0) = new.
Proof.
  intros (r & readers & Ht & _ & Hphase). unfold turn. rewrite Ht.
  change ((r :: readers) !! 0%nat) with (Some r). cbv beta iota.
  destruct Hphase as [[Hp ->]|[Hp Hc]].
  - cbn [code view]. now rewrite resume_refresh_cache, Hp.
  - rewrite Hc. cbn [resume]. exact Hp.
Qed.

Lemma turn_reader_process (l : Loop) (i : nat) :
  loop_ok old l -> process (turn l (S i)) = process l.
Proof.
  intros (r & readers & Ht & Hall & Hphase). unfold turn. rewrite Ht.
  change ((r :: readers) !! S i) with (readers !! i).
  destruct (readers !! i) as [t|] eqn:Hi; [|reflexivity].
  assert (Hok : reader_ok old t).
  { eapply Forall_lookup_1; eassumption. }
  assert (Hp : process l = old \/ process l = new) by tauto.
  destruct (reader_turn (process l) t Hok Hp) as (code' & v' & -> & _).
  reflexivity.
Qed.

(** Once the refresh has been resumed the process is the refreshed one;
    before that it is the old one. *)
Lemma run_process (schedule : list nat) (l : Loop) :
  loop_ok old l ->
  (In 0%nat schedule \/ process l = new ->
   process (run schedule l) = new) /\
  (~ In 0%nat schedule -> process (run schedule l) = process l).
Proof.
  revert l. induction schedule as [|i schedule IH]; intros l Hl.
  - split; [intros [[]|H]; exact H|reflexivity].
  - pose proof (loop_ok_turn l i Hl) as Hl'.
    destruct (IH _ Hl') as [IHin IHout].
    change (run (i :: schedule) l) with (run schedule (turn l i)).
    split.
    + intros Hin. apply IHin. destruct i as [|i].
      * right. now apply turn_refresh_process.
      * rewrite turn_reader_process by assumption.
        destruct Hin as [[Hi|Hin]|Hp]; [discriminate Hi|now left|now right].
    + intros Hout. rewrite IHout.
      * destruct i as [|i]; [exfalso; apply Hout; now left|].
        now apply turn_reader_process.
      * intros Hin. apply Hout. now right.
Qed.

End Atomicity.

(** C2: the refresh runs the three loaders (three calls to the store)
    and replaces the three mappings by what the loaders returned, without
    an [await] in between, so on the event loop it is one step: however
    the loop schedules the refresh among readers, the globals between
    two turns are the old snapshot (as long as the refresh has not been
    resumed) or the new one (once it has), and what each reader has read
    comes from the old snapshot only or from the new snapshot only. *)
Theorem refresh_is_atomic_for_readers (old : Process)
  (readers : list Coroutine) (schedule : list nat) :
  Forall fresh_reader readers ->
  let new := snd (refresh_cache old) in
  let final := run schedule (refresh_among old readers) in
  calls (store new) =
    calls (store old) ++ [("bird_text_search"%string, 100);
                          ("bird_image_search"%string, 1000);
                          ("bird_audio_search"%string, 1000)] /\
  (cache (process final) = cache old \/ cache (process final) = cache new) /\
  Forall (fun t => view_from (cache old) (view t) \/
                   view_from (cache new) (view t)) (tail (tasks final)) /\
  cache new =
    {| ALL_TEXT_DATA := fst (get_all_text_data (store old));
       ALL_IMAGE_DATA :=
         fst (get_all_image_data (snd (get_all_text_data (store old))));
       ALL_AUDIO_DATA :=
         fst (get_all_audio_data
                (snd (get_all_image_data
                        (snd (get_all_text_data (store old)))))) |} /\
  (In 0%nat schedule -> process final = new) /\
  (~ In 0%nat schedule -> process final = old).
Proof.
  intros H new final. split; [apply refresh_cache_calls|].
  pose proof (loop_ok_start old readers H) as Hstart.
  destruct (loop_ok_views old _ (loop_ok_run old schedule _ Hstart))
    as [Hc Hv].
  destruct (run_process old schedule _ Hstart) as [Hin Hout].
  split; [exact Hc|]. split; [exact Hv|].
  split; [apply refresh_cache_cache|].
  split; [intros Hs; apply Hin; now left|exact Hout].
Qed.

(** The text reader runs before the refresh and reads the old snapshot;
    the upload reader is suspended across the refresh and reads the new
    one; the new snapshot is what the loaders return on the sample
    store, three text records where the old one had one. *)
Lemma refresh_is_atomic_for_readers_witness :
  let old := SampleLoop.old_process in
  let new := snd (refresh_cache old) in
  let final := run [2; 1; 0; 1]%nat (refresh_among old SampleLoop.readers) in
  Forall (fun t => view_from (cache old) (view t) \/
                   view_from (cache new) (view t)) (tail (tasks final)) /\
  view <$> tasks final !! 1%nat =
    Some {| view_text := Some (ALL_TEXT_DATA (cache new));
            view_image := Some (ALL_IMAGE_DATA (cache new));
            view_audio := Some (ALL_AUDIO_DATA (cache new)) |} /\
  view <$> tasks final !! 2%nat =
    Some {| view_text := Some (ALL_TEXT_DATA (cache old));
            view_image := Some (ALL_IMAGE_DATA (cache old));
            view_audio := Some (ALL_AUDIO_DATA (cache old)) |} /\
  process final = new /\
  map fst (ALL_TEXT_DATA (cache old)) = [VInt 1] /\
  map fst (ALL_TEXT_DATA (cache new)) = [VInt 1; VInt 2; VInt 3] /\
  map fst (ALL_IMAGE_DATA (cache new)) = [VInt 1] /\
  map fst (ALL_AUDIO_DATA (cache new)) = [VInt 1; VInt 3].
Proof.
  intros old new final.
  destruct (refresh_is_atomic_for_readers old SampleLoop.readers
              [2; 1; 0; 1]%nat) as (_ & _ & Hv & Hnew & Hin & _).
  { repeat constructor.
    - exists 1%nat, (join_code ++ join_code). split; reflexivity.
    - exists 0%nat, join_code. split; reflexivity. }
  split; [exact Hv|]. split; [reflexivity|]. split; [reflexivity|].
  split; [apply Hin; simpl; auto|].
  split; [reflexivity|].
  fold new in Hnew. rewrite Hnew. repeat split.
Defined.

(** The absence of a suspension point is what the property rests on: a
    refresh that awaited between its assignments could be observed half
    done. *)
Lemma suspending_refresh_is_not_atomic :
  let old := SampleLoop.old_process in
  let new := snd (refresh_cache old) in
  let final :=
    run [0; 1]%nat
      {| process := old;
         tasks := [ {| code := suspending_refresh_code; view := no_view |};
                    {| code := join_code; view := no_view |} ] |} in
  exists t, tasks final !! 1%nat = Some t /\
    ~ (view_from (cache old) (view t) \/ view_from (cache new) (view t)).
Proof.
  intros old new final. eexists. split; [reflexivity|].
  intros [(Ht & _ & _)|(_ & Hi & _)].
  - specialize (Ht _ eq_refl). vm_compute in Ht. discriminate Ht.
  - specialize (Hi _ eq_refl). vm_compute in Hi. discriminate Hi.
Qed.

(** * Further properties of the code *)

(** ** The search endpoints *)

(** X1: when the image search answers, its results are of pairwise
    different entities, there are at most [limit] of them (for a
    non-negative [limit]), [total_found] is their number, and they are
    the first occurrences, cut to [limit], among the hits of a store
    search for [limit * 5] hits. *)
Theorem image_search_distinct_and_bounded (b : Backend) (c : Cache)
  (content_type content : string) (limit : Z) (resp : SearchResponse) :
  search_by_image b c content_type content limit = Ok resp ->
  distinct_ids (map bird_id (results resp)) /\
  (0 <= limit -> Z.of_nat (length (results resp)) <= limit) /\
  total_found resp = length (results resp) /\
  exists features hits,
    search b "bird_image_search" features (limit * 5) = Ok hits /\
    map bird_id (results resp) =
      slice_to (map hit_id (first_occurrences hits)) limit.
Proof. apply search_by_image_distinct. Qed.

Lemma image_search_distinct_and_bounded_witness :
  exists resp,
    search_by_image SampleBackend.two_clips_of_one_bird Sample.small_cache
      "image/jpeg" "" 1 = Ok resp /\
    distinct_ids (map bird_id (results resp)) /\
    map bird_id (results resp) = [VInt 5] /\
    total_found resp = 1%nat.
Proof.
  eexists. split; [vm_compute; reflexivity|].
  match goal with
  | |- distinct_ids (map bird_id (results ?r)) /\ _ =>
      destruct (image_search_distinct_and_bounded
                  SampleBackend.two_clips_of_one_bird Sample.small_cache
                  "image/jpeg" "" 1 r) as (Hd & _ & Ht & _);
        [vm_compute; reflexivity|]
  end.
  split; [exact Hd|]. split; reflexivity.
Defined.

Lemma as_http500_Raise {A : Type} (body : result A) (e : exn) :
  as_http500 body = Raise e -> e = HTTPException 500.
Proof. destruct body; simpl; congruence. Qed.

(** X2: a search endpoint that fails, fails with status 500 whatever
    went wrong; in particular an upload whose content type is not
    [audio/...] (or [image/...]) is answered with 500, not with the 400
    raised for it, because that exception is raised inside the [try]. *)
Theorem search_failures_are_500 (b : Backend) (c : Cache)
  (content_type content : string) (limit : Z) :
  (forall e, search_by_text b c content limit = Raise e ->
             e = HTTPException 500) /\
  (forall e, search_by_audio b c content_type content limit = Raise e ->
             e = HTTPException 500) /\
  (forall e, search_by_image b c content_type content limit = Raise e ->
             e = HTTPException 500) /\
  (String.prefix "audio/" content_type = false ->
   search_by_audio b c content_type content limit =
     Raise (HTTPException 500)) /\
  (String.prefix "image/" content_type = false ->
   search_by_image b c content_type content limit =
     Raise (HTTPException 500)).
Proof.
  repeat split; try (intros e; apply as_http500_Raise).
  - intros H. unfold search_by_audio. now rewrite H.
  - intros H. unfold search_by_image. now rewrite H.
Qed.

Lemma search_failures_are_500_witness :
  search_by_audio SampleBackend.two_clips_of_one_bird Sample.small_cache
    "text/plain" "" 12 = Raise (HTTPException 500) /\
  search_by_text SampleBackend.two_clips_of_one_bird Sample.small_cache
    "owl" 12 = Raise (HTTPException 500).
Proof.
  destruct (search_failures_are_500 SampleBackend.two_clips_of_one_bird
              Sample.small_cache "text/plain" "owl" 12)
    as (Ht & _ & _ & Ha & _).
  split.
  - destruct (search_failures_are_500
                SampleBackend.two_clips_of_one_bird
                Sample.small_cache "text/plain" "" 12)
      as (_ & _ & _ & Ha' & _).
    apply Ha'. reflexivity.
  - destruct (search_by_text SampleBackend.two_clips_of_one_bird
                Sample.small_cache "owl" 12) as [resp|e] eqn:Hs.
    + vm_compute in Hs. discriminate Hs.
    + now rewrite (Ht e eq_refl).
Defined.





(** ** The join and the detail endpoints *)

(** X4: the join raises in two cases only: the hit's [bird_id] is a
    list or a dictionary (it cannot be a dictionary key), or the cached
    text record of the entity has a truthy [species_name] that is not a
    string (it has no [replace]). *)
Theorem join_raises_only_on_bad_key_or_name (c : Cache) (hit : ScoredPoint)
  (ty : string) (e : exn) :
  create_comprehensive_result c hit ty = Raise e ->
  (hashable (hit_id hit) = false /\ e = TypeError) \/
  (e = AttributeError /\
   exists v,
     text_info_of c (hit_id hit) !! "species_name" = Some v /\
     truthy v = true /\ forall s, v <> VStr s).
Proof.
  intros H. unfold hit_id.
  destruct (hashable (payload_get (payload hit) "bird_id")) eqn:Hh.
  - right.
    destruct (is_None (payload_get (payload hit) "bird_id")) eqn:Hn.
    { apply is_None_true in Hn. rewrite (create_no_id _ _ _ Hn) in H.
      discriminate. }
    apply is_None_false in Hn.
    rewrite create_with_id in H by assumption.
    unfold wiki_url, payload_get, payload_get_default in H.
    destruct (text_info_of c _ !! "species_name") as [v|] eqn:Hv;
      simpl in H; [|discriminate].
    destruct (truthy v) eqn:Ht; simpl in H; [|discriminate].
    destruct v; simpl in H; try (injection H as <-);
      try (split; [reflexivity|]; eexists; repeat split;
           [assumption|intros s' Hs'; discriminate Hs']).
    discriminate H.
  - left. rewrite create_unhashable in H by assumption.
    injection H as <-. auto.
Qed.

Lemma join_raises_only_on_bad_key_or_name_witness :
  create_comprehensive_result SampleMalformed.numeric_name_cache
    (Sample.hit_of 4 Sample.half) "text" = Raise AttributeError /\
  text_info_of SampleMalformed.numeric_name_cache (VInt 4) !! "species_name"
    = Some (VInt 17).
Proof.
  destruct (create_comprehensive_result SampleMalformed.numeric_name_cache
              (Sample.hit_of 4 Sample.half) "text") as [o|e] eqn:Hc.
  - vm_compute in Hc. discriminate Hc.
  - destruct (join_raises_only_on_bad_key_or_name _ _ _ _ Hc)
      as [[Hh _]|[-> _]].
    + vm_compute in Hh. discriminate Hh.
    + split; reflexivity.
Defined.

Lemma size_zero_empty (d : Payload) : Nat.eqb (size d) 0 = true <-> d = ∅.
Proof. rewrite Nat.eqb_eq. apply map_size_empty_iff. Qed.

Lemma list_truthy_false {A : Type} (l : list A) :
  list_truthy l = false <-> l = [].
Proof. destruct l; simpl; split; congruence. Qed.

Lemma get_bird_info_cases (c : Cache) (id : Z) :
  (get_bird_info c id = Raise (HTTPException 404) <->
   text_info_of c (VInt id) = ∅ /\ images_of c (VInt id) = [] /\
   audio_clips_of c (VInt id) = []) /\
  (forall e, get_bird_info c id = Raise e -> e = HTTPException 404) /\
  (forall info, get_bird_info c id = Ok info ->
     BirdDetail.bird_id info = id /\
     BirdDetail.raw_text_data info = text_info_of c (VInt id) /\
     BirdDetail.text_information info = text_info_of c (VInt id) /\
     BirdDetail.images info = images_of c (VInt id) /\
     BirdDetail.audio_clips info = audio_clips_of c (VInt id) /\
     BirdDetail.count_images info = length (images_of c (VInt id)) /\
     BirdDetail.count_audio_clips info =
       length (audio_clips_of c (VInt id)) /\
     BirdDetail.species_name info =
       payload_get_default (text_info_of c (VInt id)) "species_name"
         (VStr "Unknown") /\
     BirdDetail.scientific_name info =
       payload_get_default (text_info_of c (VInt id)) "scientific_name"
         (VStr "") /\
     BirdDetail.family info =
       payload_get_default (text_info_of c (VInt id)) "family" (VStr "")).
Proof.
  unfold get_bird_info, dict_get. simpl hashable. cbv iota.
  cbn [mbind result_bind].
  fold (text_info_of c (VInt id)) (images_of c (VInt id))
    (audio_clips_of c (VInt id)).
  destruct (truthy (VDict (text_info_of c (VInt id)))
            || list_truthy (images_of c (VInt id))
            || list_truthy (audio_clips_of c (VInt id))) eqn:Hany;
    cbn [negb reraise_http mret result_ret].
  - split; [|split].
    + split; [discriminate|]. intros (Ht & Hi & Ha).
      rewrite Ht, Hi, Ha in Hany. vm_compute in Hany. discriminate Hany.
    + intros e H. discriminate H.
    + intros info [= <-]. simpl. repeat split.
  - split; [|split].
    + split; [|reflexivity]. intros _.
      apply orb_false_elim in Hany as [Hany Ha].
      apply orb_false_elim in Hany as [Ht Hi].
      apply list_truthy_false in Hi, Ha.
      simpl in Ht. apply negb_false_iff, size_zero_empty in Ht. auto.
    + intros e [= <-]. reflexivity.
    + intros info H. discriminate H.
Qed.

(** X5: the detail endpoint answers 404 exactly when the bird has no
    text record (or an empty one), no image and no audio clip in the
    cache; it never fails in another way; when it answers, it gives the
    cached text record and media lists as they are, with their
    lengths as counts. *)
Theorem bird_detail_found_or_404 (c : Cache) (id : Z) :
  (get_bird_info c id = Raise (HTTPException 404) <->
   text_info_of c (VInt id) = ∅ /\ images_of c (VInt id) = [] /\
   audio_clips_of c (VInt id) = []) /\
  (forall e, get_bird_info c id = Raise e -> e = HTTPException 404) /\
  (forall info, get_bird_info c id = Ok info ->
     BirdDetail.bird_id info = id /\
     BirdDetail.raw_text_data info = text_info_of c (VInt id) /\
     BirdDetail.text_information info = text_info_of c (VInt id) /\
     BirdDetail.images info = images_of c (VInt id) /\
     BirdDetail.audio_clips info = audio_clips_of c (VInt id) /\
     BirdDetail.count_images info = length (images_of c (VInt id)) /\
     BirdDetail.count_audio_clips info =
       length (audio_clips_of c (VInt id)) /\
     BirdDetail.species_name info =
       payload_get_default (text_info_of c (VInt id)) "species_name"
         (VStr "Unknown")).
Proof.
  destruct (get_bird_info_cases c id) as (H404 & Herr & Hok).
  split; [exact H404|]. split; [exact Herr|].
  intros info H. destruct (Hok info H) as (?&?&?&?&?&?&?&?&_). auto 10.
Qed.

Lemma bird_detail_found_or_404_witness :
  get_bird_info Sample.small_cache 7 = Raise (HTTPException 404) /\
  exists info,
    get_bird_info Sample.small_cache 2 = Ok info /\
    BirdDetail.raw_text_data info = ∅ /\
    BirdDetail.count_images info = 1%nat /\
    BirdDetail.species_name info = VStr "Unknown".
Proof.
  split.
  - apply (proj1 (bird_detail_found_or_404 Sample.small_cache 7)).
    repeat split.
  - eexists. split; [vm_compute; reflexivity|].
    match goal with
    | |- BirdDetail.raw_text_data ?i = _ /\ _ =>
        destruct (proj2 (proj2 (bird_detail_found_or_404
                                  Sample.small_cache 2)) i)
          as (_ & Hr & _ & _ & _ & Hc & _ & Hs); [vm_compute; reflexivity|]
    end.
    rewrite Hr, Hc, Hs. repeat split.
Defined.

(** X6: a search result and the detail page of the same bird agree: for
    a hit with an integer id that the join accepts, the detail endpoint
    either answers with the same text record, images and audio clips as
    the joined result, or answers 404 and then the joined result has an
    empty text record and no media. *)
Theorem join_agrees_with_bird_detail (c : Cache) (hit : ScoredPoint)
  (ty : string) (r : ComprehensiveResult) (id : Z) :
  hit_id hit = VInt id ->
  create_comprehensive_result c hit ty = Ok (Some r) ->
  (exists info,
     get_bird_info c id = Ok info /\
     BirdDetail.raw_text_data info = raw_text_data r /\
     BirdDetail.images info = images r /\
     BirdDetail.audio_clips info = audio_clips r /\
     BirdDetail.scientific_name info = scientific_name r /\
     BirdDetail.family info = family r) \/
  (get_bird_info c id = Raise (HTTPException 404) /\
   raw_text_data r = ∅ /\ images r = [] /\ audio_clips r = []).
Proof.
  intros Hid Hc. unfold hit_id in Hid.
  assert (Hne : payload_get (payload hit) "bird_id" <> VNone).
  { rewrite Hid. discriminate. }
  rewrite create_with_id in Hc by (rewrite ?Hid; auto).
  rewrite Hid in Hc.
  destruct (wiki_url (text_info_of c (VInt id))) as [u|] eqn:Hu;
    cbn [mbind result_bind mret result_ret] in Hc; [|discriminate].
  injection Hc as <-. simpl.
  destruct (get_bird_info c id) as [info|e] eqn:Hg.
  - left. exists info. split; [reflexivity|].
    destruct (proj2 (proj2 (get_bird_info_cases c id)) info Hg)
      as (_ & Hr & _ & Hi & Ha & _ & _ & _ & Hs & Hf).
    now rewrite Hr, Hi, Ha, Hs, Hf.
  - right.
    pose proof (proj1 (proj2 (get_bird_info_cases c id)) e Hg) as ->.
    split; [reflexivity|].
    now apply (proj1 (get_bird_info_cases c id)).
Qed.

Lemma join_agrees_with_bird_detail_witness :
  (exists r info,
     create_comprehensive_result Sample.small_cache
       (Sample.named_hit 1 "Sparrow" Sample.half) "text" = Ok (Some r) /\
     get_bird_info Sample.small_cache 1 = Ok info /\
     BirdDetail.images info = images r /\
     BirdDetail.raw_text_data info = raw_text_data r) /\
  (exists r,
     create_comprehensive_result Sample.small_cache
       (Sample.hit_of 7 Sample.half) "text" = Ok (Some r) /\
     get_bird_info Sample.small_cache 7 = Raise (HTTPException 404) /\
     images r = []).
Proof.
  split.
  - eexists.
    match goal with
    | |- exists info, ?c = Ok (Some ?r) /\ _ =>
        destruct (join_agrees_with_bird_detail Sample.small_cache
                    (Sample.named_hit 1 "Sparrow" Sample.half) "text" r 1)
          as [(info & Hg & Hr & Hi & _)|(Hg & _)];
          [reflexivity|vm_compute; reflexivity| |]
    end.
    + exists info. split; [vm_compute; reflexivity|]. auto.
    + vm_compute in Hg. discriminate Hg.
  - eexists.
    match goal with
    | |- ?c = Ok (Some ?r) /\ _ =>
        destruct (join_agrees_with_bird_detail Sample.small_cache
                    (Sample.hit_of 7 Sample.half) "text" r 7)
          as [(info & Hg & _)|(Hg & _ & Hi & _)];
          [reflexivity|vm_compute; reflexivity| |]
    end.
    + vm_compute in Hg. discriminate Hg.
    + split; [vm_compute; reflexivity|]. auto.
Defined.

Lemma bird_record_Ok (c : Cache) (acc acc' : list BirdRecord.t)
  (item : value * Payload) :
  bird_record c acc item = Ok acc' ->
  exists r, acc' = acc ++ [r] /\
    BirdRecord.bird_id r = fst item /\
    BirdRecord.raw_text_data r = snd item /\
    BirdRecord.images r = images_of c (fst item) /\
    BirdRecord.audio_clips r = audio_clips_of c (fst item) /\
    wiki_url (snd item) = Ok (BirdRecord.url r).
Proof.
  destruct item as [id text_info]. unfold bird_record, dict_get.
  destruct (hashable id); cbn [mbind result_bind]; [|discriminate].
  destruct (wiki_url text_info) as [u|] eqn:Hu; cbn [mbind result_bind];
    [|discriminate].
  intros [= <-]. eexists. split; [reflexivity|]. simpl.
  rewrite Hu. repeat split.
Qed.

Lemma all_birds_loop (c : Cache) (items : pydict Payload)
  (acc rs : list BirdRecord.t) :
  for_each (bird_record c) items acc = Ok rs ->
  map BirdRecord.bird_id rs = map BirdRecord.bird_id acc ++ map fst items /\
  map BirdRecord.raw_text_data rs =
    map BirdRecord.raw_text_data acc ++ map snd items /\
  (Forall (fun r => BirdRecord.images r = images_of c (BirdRecord.bird_id r)
                    /\ BirdRecord.audio_clips r =
                       audio_clips_of c (BirdRecord.bird_id r)) acc ->
   Forall (fun r => BirdRecord.images r = images_of c (BirdRecord.bird_id r)
                    /\ BirdRecord.audio_clips r =
                       audio_clips_of c (BirdRecord.bird_id r)) rs).
Proof.
  revert acc. induction items as [|item items IH]; intros acc H.
  - simpl in H. injection H as <-. simpl. now rewrite !app_nil_r.
  - cbn [for_each] in H.
    destruct (bird_record c acc item) as [acc'|] eqn:Hb;
      cbn [mbind result_bind] in H; [|discriminate].
    destruct (bird_record_Ok _ _ _ _ Hb) as (r & -> & Hid & Hr & Hi & Ha & _).
    destruct (IH _ H) as (-> & -> & Hall).
    rewrite !map_app. simpl. rewrite Hid, Hr, <- !app_assoc.
    split; [reflexivity|]. split; [reflexivity|].
    intros Hacc. apply Hall, Forall_app. split; [exact Hacc|].
    constructor; [|constructor]. now rewrite Hid.
Qed.

(** X7: when the listing endpoint answers, it lists exactly the birds
    of the text cache, one record per entry and in the order of the
    cache, each with its cached text record and the media lists cached
    under its id; a bird that has images or clips but no text record is
    not listed.  When it fails, it fails with status 500. *)
Theorem all_birds_lists_text_cache (c : Cache) :
  (forall resp, get_all_birds c = Ok resp ->
     map BirdRecord.bird_id (all_results resp) = map fst (ALL_TEXT_DATA c) /\
     map BirdRecord.raw_text_data (all_results resp) =
       map snd (ALL_TEXT_DATA c) /\
     all_total_found resp = length (ALL_TEXT_DATA c) /\
     Forall (fun r => BirdRecord.images r =
                        images_of c (BirdRecord.bird_id r) /\
                      BirdRecord.audio_clips r =
                        audio_clips_of c (BirdRecord.bird_id r))
       (all_results resp)) /\
  (forall e, get_all_birds c = Raise e -> e = HTTPException 500).
Proof.
  split; [|intros e; apply as_http500_Raise].
  intros resp H. unfold get_all_birds, as_http500 in H.
  destruct (for_each (bird_record c) (ALL_TEXT_DATA c) []) as [rs|] eqn:Hl;
    simpl in H; [|discriminate].
  injection H as <-. simpl.
  destruct (all_birds_loop _ _ _ _ Hl) as (Hi & Hr & Hall).
  simpl in Hi, Hr. split; [exact Hi|]. split; [exact Hr|]. split.
  - now rewrite <- (length_map BirdRecord.bird_id), Hi, length_map.
  - apply Hall. constructor.
Qed.

(** Bird 2 of the sample cache has an image and a clip but no text
    record: it is not listed. *)
Lemma all_birds_lists_text_cache_witness :
  exists resp,
    get_all_birds Sample.small_cache = Ok resp /\
    map BirdRecord.bird_id (all_results resp) = [VInt 1] /\
    all_total_found resp = 1%nat /\
    get_all_birds SampleMalformed.numeric_name_cache =
      Raise (HTTPException 500).
Proof.
  eexists. split; [vm_compute; reflexivity|].
  match goal with
  | |- map BirdRecord.bird_id (all_results ?r) = _ /\ _ =>
      destruct (proj1 (all_birds_lists_text_cache Sample.small_cache) r)
        as (Hi & _ & Ht & _); [vm_compute; reflexivity|]
  end.
  split; [exact Hi|]. split; [exact Ht|].
  destruct (get_all_birds SampleMalformed.numeric_name_cache)
    as [resp|e] eqn:Hg.
  - vm_compute in Hg. discriminate Hg.
  - now rewrite (proj2 (all_birds_lists_text_cache
                          SampleMalformed.numeric_name_cache) e Hg).
Defined.

(** ** The cache loaders on a page of records *)

Lemma for_each_invariant {A S : Type} (P : S -> Prop)
  (body : S -> A -> result S) (xs : list A) (s s' : S) :
  (forall s x s', P s -> body s x = Ok s' -> P s') ->
  P s -> for_each body xs s = Ok s' -> P s'.
Proof.
  intros Hstep. revert s. induction xs as [|x xs IH]; intros s Hs H.
  - simpl in H. now injection H as <-.
  - cbn [for_each] in H.
    destruct (body s x) as [s1|] eqn:Hb; cbn [mbind result_bind] in H;
      [|discriminate].
    eapply IH; [|exact H]. eapply Hstep; eassumption.
Qed.

Lemma find_key_None {V : Type} (k : value) (d : pydict V) :
  find_key k d = None ->
  Forall (fun k' => py_eq k' k = false) (map fst d).
Proof.
  unfold find_key. induction d as [|[k' v] d IH]; simpl; [constructor|].
  destruct (py_eq k' k) eqn:Hk; simpl; [discriminate|].
  intros H. constructor; [assumption|now apply IH].
Qed.

Lemma dict_alter_keys {V : Type} (f : V -> V) (k : value) (d : pydict V) :
  map fst (dict_alter f k d) = map fst d.
Proof.
  induction d as [|[k' v] d IH]; simpl; [reflexivity|].
  destruct (py_eq k' k); simpl; congruence.
Qed.

Lemma distinct_ids_snoc (ids : list value) (k : value) :
  distinct_ids ids -> Forall (fun k' => py_eq k' k = false) ids ->
  distinct_ids (ids ++ [k]).
Proof.
  induction ids as [|id ids IH]; simpl; intros Hd Hk.
  - split; [constructor|exact I].
  - destruct Hd as [Hhd Htl]. apply Forall_cons in Hk as [Hk Hks].
    split; [|now apply IH].
    apply Forall_app. split; [assumption|]. now constructor.
Qed.

Lemma keys_ok_nil {V : Type} : keys_ok (@nil (value * V)).
Proof. split; [exact I|constructor]. Qed.

Lemma keys_ok_update {V : Type} (d : pydict V) (k : value) (f : V -> V)
  (v : V) (present : bool) :
  keys_ok d -> dict_contains d k = Ok present ->
  keys_ok (if present then dict_alter f k d else d ++ [(k, v)]).
Proof.
  intros [Hd Hh] Hc. unfold dict_contains in Hc.
  destruct (hashable k) eqn:Hk; [|discriminate]. injection Hc as <-.
  destruct (find_key k d) as [v'|] eqn:Hf.
  - rewrite bool_decide_eq_true_2 by eauto.
    unfold keys_ok. now rewrite dict_alter_keys.
  - rewrite bool_decide_eq_false_2 by (intros [? [=]]).
    unfold keys_ok. rewrite map_app. simpl. split.
    + apply distinct_ids_snoc; [assumption|now apply find_key_None].
    + apply Forall_app. split; [assumption|]. now constructor.
Qed.

Lemma dict_setitem_keys_ok {V : Type} (d d' : pydict V) (k : value) (v : V) :
  keys_ok d -> dict_setitem d k v = Ok d' -> keys_ok d'.
Proof.
  intros Hd H. unfold dict_setitem in H.
  destruct (dict_contains d k) as [present|] eqn:Hc;
    cbn [mbind result_bind mret result_ret] in H; [|discriminate].
  injection H as <-. now apply keys_ok_update.
Qed.

Lemma dict_append_keys_ok {V : Type} (d d' : pydict (list V)) (k : value)
  (x : V) :
  keys_ok d -> dict_append d k x = Ok d' -> keys_ok d'.
Proof.
  intros Hd H. unfold dict_append in H.
  destruct (dict_contains d k) as [present|] eqn:Hc;
    cbn [mbind result_bind mret result_ret] in H; [|discriminate].
  injection H as <-. now apply keys_ok_update.
Qed.

Lemma try_except_keys_ok {V : Type} (body : result (pydict V)) :
  (forall d, body = Ok d -> keys_ok d) ->
  keys_ok (try_except body (fun _ => [])).
Proof. destruct body; simpl; auto using keys_ok_nil. Qed.

(** X8: whatever the store answers, each loader returns a well-formed
    dictionary: every key is hashable and no key occurs twice (no two
    keys are equal), so each entity has one entry. *)
Theorem loaders_return_distinct_keys (st : Store) :
  keys_ok (fst (get_all_text_data st)) /\
  keys_ok (fst (get_all_image_data st)) /\
  keys_ok (fst (get_all_audio_data st)).
Proof.
  unfold get_all_text_data, get_all_image_data, get_all_audio_data, scroll.
  simpl. split; [|split]; apply try_except_keys_ok; intros d H.
  - destruct (respond st _ _ _) as [points|];
      cbn [mbind result_bind] in H; [|discriminate].
    eapply (for_each_invariant keys_ok); [|apply keys_ok_nil|exact H].
    intros s x s' Hs Hb. cbv beta in Hb.
    eapply dict_setitem_keys_ok; eassumption.
  - destruct (respond st _ _ _) as [points|];
      cbn [mbind result_bind] in H; [|discriminate].
    eapply (for_each_invariant keys_ok); [|apply keys_ok_nil|exact H].
    intros s x s' Hs Hb. cbv beta zeta in Hb.
    eapply dict_append_keys_ok; eassumption.
  - destruct (respond st _ _ _) as [points|];
      cbn [mbind result_bind] in H; [|discriminate].
    eapply (for_each_invariant keys_ok); [|apply keys_ok_nil|exact H].
    intros s x s' Hs Hb. cbv beta zeta in Hb.
    destruct (dict_contains s _) as [present|];
      cbn [mbind result_bind] in Hb; [|discriminate].
    destruct (with_audio_url _) as [p|];
      cbn [mbind result_bind] in Hb; [|discriminate].
    eapply dict_append_keys_ok; eassumption.
Qed.

Lemma plain_key_hashable (k : value) : plain_key k = true -> hashable k = true.
Proof. destruct k; simpl; congruence. Qed.

Lemma py_eq_plain (a b : value) :
  plain_key a = true -> plain_key b = true ->
  py_eq a b = true <-> a = b.
Proof.
  destruct a, b; simpl; try discriminate; intros _ _;
    try (split; [discriminate|congruence]).
  - tauto.
  - rewrite Z.eqb_eq. split; congruence.
  - split; [intros H; apply String.eqb_eq in H; congruence|].
    intros [= ->]. apply String.eqb_refl.
Qed.

Lemma py_eq_plain_sym (a b : value) :
  plain_key a = true -> plain_key b = true -> py_eq a b = py_eq b a.
Proof.
  intros Ha Hb. destruct (py_eq a b) eqn:H1, (py_eq b a) eqn:H2; auto.
  - apply py_eq_plain in H1 as ->; auto.
    rewrite (proj2 (py_eq_plain b b Hb Hb) eq_refl) in H2. discriminate.
  - apply py_eq_plain in H2 as ->; auto.
    rewrite (proj2 (py_eq_plain a a Ha Ha) eq_refl) in H1. discriminate.
Qed.

(** Looking a key up after an update of the first entry of key [k], in
    a dictionary of plain keys. *)
Lemma find_key_dict_alter {V : Type} (f : V -> V) (k id : value)
  (d : pydict V) :
  Forall (fun k' => plain_key k' = true) (map fst d) ->
  plain_key k = true -> plain_key id = true ->
  find_key id (dict_alter f k d) =
  if py_eq k id then f <$> find_key id d else find_key id d.
Proof.
  intros Hd Hk Hid. unfold find_key.
  induction d as [|[k' v] d IH]; simpl.
  - now destruct (py_eq k id).
  - simpl in Hd. apply Forall_cons in Hd as [Hk' Hd].
    destruct (py_eq k' k) eqn:E1; simpl.
    + apply py_eq_plain in E1 as ->; auto.
      destruct (py_eq k id); reflexivity.
    + destruct (py_eq k' id) eqn:E2; simpl.
      * apply py_eq_plain in E2 as ->; auto.
        rewrite (py_eq_plain_sym k id), E1 by assumption. reflexivity.
      * now apply IH.
Qed.

Lemma find_key_snoc {V : Type} (k id : value) (v : V) (d : pydict V) :
  find_key id (d ++ [(k, v)]) =
  match find_key id d with
  | Some v' => Some v'
  | None => if py_eq k id then Some v else None
  end.
Proof.
  unfold find_key. induction d as [|[k' v'] d IH]; simpl.
  - now destruct (py_eq k id).
  - destruct (py_eq k' id); simpl; [reflexivity|exact IH].
Qed.

(** An update of a dictionary of plain keys, seen from the key [id]. *)
Lemma update_lookup {V : Type} (d : pydict V) (k id : value) (f : V -> V)
  (v : V) :
  Forall (fun k' => plain_key k' = true) (map fst d) ->
  plain_key k = true -> plain_key id = true ->
  exists present,
    dict_contains d k = Ok present /\
    let d' := if present : bool then dict_alter f k d else d ++ [(k, v)] in
    Forall (fun k' => plain_key k' = true) (map fst d') /\
    find_key id d' =
      if py_eq k id
      then Some (match find_key id d with Some x => f x | None => v end)
      else find_key id d.
Proof.
  intros Hd Hk Hid. unfold dict_contains.
  rewrite (plain_key_hashable _ Hk). eexists. split; [reflexivity|].
  destruct (find_key k d) as [x|] eqn:Hf.
  - rewrite bool_decide_eq_true_2 by eauto. cbv zeta. split.
    + now rewrite dict_alter_keys.
    + rewrite find_key_dict_alter by assumption.
      destruct (py_eq k id) eqn:E; [|reflexivity].
      apply py_eq_plain in E as <-; auto. now rewrite Hf.
  - rewrite bool_decide_eq_false_2 by (intros [? [=]]). cbv zeta. split.
    + rewrite map_app. apply Forall_app. split; [assumption|].
      now constructor.
    + rewrite find_key_snoc.
      destruct (py_eq k id) eqn:E.
      * apply py_eq_plain in E as <-; auto. now rewrite Hf.
      * now destruct (find_key id d).
Qed.

(** The grouping loop, seen from the key [id]. *)
Lemma group_loop_lookup (points : list Record_) (id : value)
  (d : pydict (list Payload)) :
  Forall (fun p => plain_key (record_id p) = true) points ->
  Forall (fun k' => plain_key k' = true) (map fst d) ->
  plain_key id = true ->
  exists d',
    for_each
      (fun image_data point =>
         let bird_id := payload_get (record_payload point) "bird_id" in
         dict_append image_data bird_id (record_payload point))
      points d = Ok d' /\
    find_key id d' =
      match records_of id points with
      | [] => find_key id d
      | g => Some (default [] (find_key id d) ++ g)
      end.
Proof.
  intros Hp. revert d. induction Hp as [|p points Hk Hp IH]; intros d Hd Hid.
  - exists d. split; reflexivity.
  - cbn [for_each]. cbv zeta. fold (record_id p). unfold dict_append.
    destruct (update_lookup d (record_id p) id
                (fun l => l ++ [record_payload p]) [record_payload p]
                Hd Hk Hid) as (present & -> & Hd' & Hf).
    cbv zeta in Hd', Hf. cbn [mbind result_bind mret result_ret].
    destruct (IH _ Hd' Hid) as (d' & Hloop & Hf').
    exists d'. split; [exact Hloop|]. rewrite Hf', Hf.
    unfold records_of. cbn [List.filter].
    destruct (py_eq (record_id p) id); cbn [map].
    + destruct (map record_payload _) as [|g gs]; simpl.
      * now destruct (find_key id d).
      * destruct (find_key id d); simpl; now rewrite <- ?app_assoc.
    + reflexivity.
Qed.

Lemma image_loader_lookup (st : Store)
  (points : list Record_) (id : value) :
  respond st (length (calls st)) "bird_image_search" 1000 = Ok points ->
  Forall (fun p => plain_key (record_id p) = true) points ->
  plain_key id = true ->
  find_key id (fst (get_all_image_data st)) =
    match records_of id points with
    | [] => None
    | g => Some g
    end.
Proof.
  intros Hr Hp Hid. unfold get_all_image_data, scroll. simpl. rewrite Hr.
  cbn [mbind result_bind].
  destruct (group_loop_lookup points id [] Hp (List.Forall_nil _) Hid)
    as (d' & Hloop & Hf).
  cbv zeta in Hloop. rewrite Hloop. simpl. exact Hf.
Qed.

(** X9: on a page whose records have plain ids (integers, strings, or
    no id at all), the image loader groups the records by id without
    losing or reordering any: the entry of an id is the list of the
    page's records with that id, in page order, and an id without
    records has no entry.  Records without a [bird_id] are grouped under
    the key [None]. *)
Theorem image_loader_groups_in_page_order (st : Store)
  (points : list Record_) (id : value) :
  respond st (length (calls st)) "bird_image_search" 1000 = Ok points ->
  Forall (fun p => plain_key (record_id p) = true) points ->
  plain_key id = true ->
  find_key id (fst (get_all_image_data st)) =
    match records_of id points with
    | [] => None
    | g => Some g
    end.
Proof. apply image_loader_lookup. Qed.

Lemma image_loader_groups_in_page_order_witness :
  find_key (VInt 1) (fst (get_all_image_data SampleStore.steady)) =
    Some [Sample.image_record 1 "a.jpg" Sample.half;
          Sample.image_record 1 "b.jpg" Sample.seven_eighths] /\
  find_key (VInt 2) (fst (get_all_image_data SampleStore.steady)) = None.
Proof.
  split.
  - rewrite (image_loader_groups_in_page_order SampleStore.steady
               (SampleStore.catalogue "bird_image_search") (VInt 1));
      [reflexivity|reflexivity|repeat constructor|reflexivity].
  - rewrite (image_loader_groups_in_page_order SampleStore.steady
               (SampleStore.catalogue "bird_image_search") (VInt 2));
      [reflexivity|reflexivity|repeat constructor|reflexivity].
Defined.

(** The loop of the text loader, seen from the key [id]. *)
Lemma text_loop_lookup (points : list Record_) (id : value)
  (d : pydict Payload) :
  Forall (fun p => plain_key (record_id p) = true) points ->
  Forall (fun k' => plain_key k' = true) (map fst d) ->
  plain_key id = true ->
  exists d',
    for_each
      (fun d point =>
         dict_setitem d (payload_get (record_payload point) "bird_id")
           (record_payload point))
      points d = Ok d' /\
    find_key id d' =
      match last (records_of id points) with
      | Some x => Some x
      | None => find_key id d
      end /\
    (length d' <= length d + length points)%nat.
Proof.
  intros Hp. revert d. induction Hp as [|p points Hk Hp IH]; intros d Hd Hid.
  - exists d. repeat split. simpl. lia.
  - cbn [for_each]. fold (record_id p). unfold dict_setitem.
    destruct (update_lookup d (record_id p) id
                (fun _ => record_payload p) (record_payload p)
                Hd Hk Hid) as (present & -> & Hd' & Hf).
    cbv zeta in Hd', Hf. cbn [mbind result_bind mret result_ret].
    destruct (IH _ Hd' Hid) as (d' & Hloop & Hf' & Hlen).
    exists d'. split; [exact Hloop|]. split.
    + rewrite Hf', Hf. unfold records_of. cbn [List.filter].
      destruct (py_eq (record_id p) id); cbn [map]; [|reflexivity].
      rewrite last_cons. destruct (last _); [reflexivity|].
      now destruct (find_key id d).
    + eapply Nat.le_trans; [exact Hlen|].
      destruct present.
      * rewrite <- (length_map fst), dict_alter_keys, length_map.
        simpl. lia.
      * rewrite length_app. simpl. lia.
Qed.

(** X10: on a page whose records have plain ids (integers, strings, or
    no id at all), the text loader keeps one record per id, the last
    one of the page with that id, and has no entry for an id that is
    not on the page; the mapping has at most as many entries as the
    page has records. *)
Theorem text_loader_keeps_last_record (st : Store) (points : list Record_)
  (id : value) :
  respond st (length (calls st)) "bird_text_search" 100 = Ok points ->
  Forall (fun p => plain_key (record_id p) = true) points ->
  plain_key id = true ->
  find_key id (fst (get_all_text_data st)) = last (records_of id points) /\
  (length (fst (get_all_text_data st)) <= length points)%nat.
Proof.
  intros Hr Hp Hid. unfold get_all_text_data, scroll. simpl. rewrite Hr.
  cbn [mbind result_bind].
  destruct (text_loop_lookup points id [] Hp (List.Forall_nil _) Hid)
    as (d' & Hloop & Hf & Hlen).
  rewrite Hloop. simpl. split; [|exact Hlen].
  rewrite Hf. now destruct (last _).
Qed.

Lemma text_loader_keeps_last_record_witness :
  let st := store_of_page SamplePage.repeated_text in
  find_key (VInt 1) (fst (get_all_text_data st)) =
    Some (Sample.text_record 1 "Eurasian Tree Sparrow" "Passer montanus"
            "Passeridae") /\
  find_key VNone (fst (get_all_text_data st)) =
    Some {[ "species_name" := VStr "Stray" ]} /\
  map fst (fst (get_all_text_data st)) = [VInt 1; VInt 2; VNone].
Proof.
  intros st.
  destruct (text_loader_keeps_last_record st
              (SamplePage.repeated_text "bird_text_search") (VInt 1))
    as [H1 _]; [reflexivity|repeat constructor|reflexivity|].
  destruct (text_loader_keeps_last_record st
              (SamplePage.repeated_text "bird_text_search") VNone)
    as [H2 _]; [reflexivity|repeat constructor|reflexivity|].
  rewrite H1, H2. repeat split.
Defined.

Lemma for_each_raises {A S : Type} (body : S -> A -> result S)
  (xs : list A) (s : S) :
  Exists (fun x => forall s, exists e, body s x = Raise e) xs ->
  exists e, for_each body xs s = Raise e.
Proof.
  intros H. revert s. induction H as [x xs Hx|x xs _ IH]; intros s.
  - destruct (Hx s) as [e He]. exists e. cbn [for_each]. now rewrite He.
  - cbn [for_each]. destruct (body s x) as [s'|e]; cbn [mbind result_bind].
    + apply IH.
    + now exists e.
Qed.

Lemma dict_contains_unhashable {V : Type} (d : pydict V) (k : value) :
  hashable k = false -> dict_contains d k = Raise TypeError.
Proof. intros H. unfold dict_contains. now rewrite H. Qed.

Lemma with_audio_url_bad_clip (p : Payload) :
  bad_clip_path p = true -> with_audio_url p = Raise AttributeError.
Proof.
  unfold bad_clip_path, with_audio_url. intros H.
  apply andb_true_iff in H as [Ht Hs]. rewrite Ht.
  now destruct (payload_get p "clip_path").
Qed.

(** X11: a malformed record is not skipped: if one record of the page
    has a list or a dictionary for [bird_id], the loader returns the
    empty mapping, without the well-formed records of the page; the
    audio loader does the same when one record has a truthy [clip_path]
    that is not a string. *)
Theorem malformed_record_empties_mapping (st : Store)
  (points : list Record_) :
  (respond st (length (calls st)) "bird_text_search" 100 = Ok points ->
   Exists (fun p => hashable (record_id p) = false) points ->
   fst (get_all_text_data st) = []) /\
  (respond st (length (calls st)) "bird_image_search" 1000 = Ok points ->
   Exists (fun p => hashable (record_id p) = false) points ->
   fst (get_all_image_data st) = []) /\
  (respond st (length (calls st)) "bird_audio_search" 1000 = Ok points ->
   Exists (fun p => hashable (record_id p) = false \/
                    bad_clip_path (record_payload p) = true) points ->
   fst (get_all_audio_data st) = []).
Proof.
  split; [|split]; intros Hr Hbad.
  - unfold get_all_text_data, scroll. simpl. rewrite Hr.
    cbn [mbind result_bind].
    edestruct (for_each_raises
                 (fun d point =>
                    dict_setitem d
                      (payload_get (record_payload point) "bird_id")
                      (record_payload point)) points []) as [e ->];
      [|reflexivity].
    eapply Exists_impl; [exact Hbad|]. intros p Hp s. cbv beta.
    exists TypeError. unfold dict_setitem.
    now rewrite (dict_contains_unhashable _ _ Hp).
  - unfold get_all_image_data, scroll. simpl. rewrite Hr.
    cbn [mbind result_bind].
    edestruct (for_each_raises
                 (fun image_data point =>
                    dict_append image_data
                      (payload_get (record_payload point) "bird_id")
                      (record_payload point)) points []) as [e He].
    + eapply Exists_impl; [exact Hbad|]. intros p Hp s. cbv beta.
      exists TypeError. unfold dict_append.
      now rewrite (dict_contains_unhashable _ _ Hp).
    + cbv zeta. now rewrite He.
  - unfold get_all_audio_data, scroll. simpl. rewrite Hr.
    cbn [mbind result_bind].
    edestruct (for_each_raises
                 (fun audio_data point =>
                    _ ← dict_contains audio_data
                          (payload_get (record_payload point) "bird_id");
                    p ← with_audio_url (record_payload point);
                    dict_append audio_data
                      (payload_get (record_payload point) "bird_id") p)
                 points []) as [e He].
    + eapply Exists_impl; [exact Hbad|]. intros p Hp s. cbv beta.
      destruct Hp as [Hp|Hp].
      * exists TypeError. now rewrite (dict_contains_unhashable _ _ Hp).
      * destruct (dict_contains s _); cbn [mbind result_bind]; eauto.
        rewrite (with_audio_url_bad_clip _ Hp). eauto.
    + cbv zeta. now rewrite He.
Qed.

Lemma malformed_record_empties_mapping_witness :
  fst (get_all_image_data (store_of_page SampleMalformed.list_id_page)) = []
  /\
  fst (get_all_audio_data (store_of_page SampleMalformed.numeric_clip_page))
    = [].
Proof.
  split.
  - apply (proj1 (proj2 (malformed_record_empties_mapping
                           (store_of_page SampleMalformed.list_id_page)
                           (SampleMalformed.list_id_page ""))));
      [reflexivity|].
    apply Exists_cons_tl, Exists_cons_hd. reflexivity.
  - apply (proj2 (proj2 (malformed_record_empties_mapping
                           (store_of_page SampleMalformed.numeric_clip_page)
                           (SampleMalformed.numeric_clip_page ""))));
      [reflexivity|].
    apply Exists_cons_tl, Exists_cons_hd. right. reflexivity.
Defined.

Lemma playback_url_step_cases (p : Payload) :
  (truthy (payload_get p "clip_path") = false -> with_audio_url p = Ok p) /\
  (forall e, with_audio_url p = Raise e ->
             e = AttributeError /\ bad_clip_path p = true) /\
  (forall p', with_audio_url p = Ok p' ->
     (forall k, k <> "audio_url"%string -> p' !! k = p !! k) /\
     (truthy (payload_get p "clip_path") = true ->
      exists filename,
        p' !! "audio_url" = Some (VStr (audio_base_url +:+ filename)))).
Proof.
  unfold with_audio_url, bad_clip_path.
  destruct (truthy (payload_get p "clip_path")) eqn:Ht.
  - split; [discriminate|].
    destruct (payload_get p "clip_path") as [| | | |path| |] eqn:Hv;
      try (split; [intros e [= <-]; auto|intros p' H; discriminate H]).
    simpl str_method.
    destruct (split_last backslash path) as (tail & Hl & _).
    destruct (split_last slash tail) as (filename & Hf & _).
    unfold mbind, result_bind. rewrite Hl, Hf.
    split; [intros e H; discriminate H|].
    intros p' [= <-]. split.
    + intros k Hk. now rewrite lookup_insert_ne.
    + intros _. exists filename. now rewrite lookup_insert_eq.
  - split; [reflexivity|]. split; [intros e H; discriminate H|].
    intros p' [= <-]. split; [reflexivity|discriminate].
Qed.

(** X12: the playback URL step copies the payload: it fails only on a
    truthy [clip_path] that is not a string; a record whose [clip_path]
    is missing, [None] or empty is returned unchanged, without an
    [audio_url]; otherwise every field other than [audio_url] is kept
    and [audio_url] is a string that starts with the audio base URL. *)
Theorem playback_url_step_copies_payload (p : Payload) :
  (truthy (payload_get p "clip_path") = false -> with_audio_url p = Ok p) /\
  (forall e, with_audio_url p = Raise e ->
             e = AttributeError /\ bad_clip_path p = true) /\
  (forall p', with_audio_url p = Ok p' ->
     (forall k, k <> "audio_url"%string -> p' !! k = p !! k) /\
     (truthy (payload_get p "clip_path") = true ->
      exists filename,
        p' !! "audio_url" = Some (VStr (audio_base_url +:+ filename)))).
Proof. apply playback_url_step_cases. Qed.

Lemma playback_url_step_copies_payload_witness :
  with_audio_url (Sample.image_record 1 "a.jpg" Sample.half) =
    Ok (Sample.image_record 1 "a.jpg" Sample.half) /\
  (forall p', with_audio_url (Sample.audio_record 3 "clips/wren_01.wav")
              = Ok p' ->
     p' !! "clip_path" = Some (VStr "clips/wren_01.wav") /\
     p' !! "bird_id" = Some (VInt 3)).
Proof.
  split.
  - apply (proj1 (playback_url_step_copies_payload
                    (Sample.image_record 1 "a.jpg" Sample.half))).
    reflexivity.
  - intros p' H.
    destruct (proj2 (proj2 (playback_url_step_copies_payload
                              (Sample.audio_record 3 "clips/wren_01.wav")))
                p' H) as [Hk _].
    rewrite !Hk by discriminate. split; reflexivity.
Defined.

(** ** De-duplication, refresh and URLs *)

Lemma filter_all_true {A : Type} (f : A -> bool) (l : list A) :
  Forall (fun x => f x = true) l -> List.filter f l = l.
Proof.
  induction 1 as [|x l Hx _ IH]; simpl; [reflexivity|].
  now rewrite Hx, IH.
Qed.

(** Hits that all have an id, no two of the same entity, are their own
    first occurrences. *)
Lemma first_occurrences_of_distinct (hits : list ScoredPoint) :
  Forall (fun h => is_None (hit_id h) = false) hits ->
  distinct_ids (map hit_id hits) ->
  first_occurrences hits = hits.
Proof.
  induction 1 as [|h hits Hh _ IH]; intros Hd; simp first_occurrences;
    [reflexivity|].
  rewrite Hh. destruct Hd as [Hhd Htl].
  rewrite filter_all_true.
  - now rewrite IH.
  - apply Forall_forall. intros h' Hin. unfold other_entity.
    eapply Forall_forall in Hhd; [rewrite Hhd; reflexivity|].
    apply list_elem_of_In, in_map, list_elem_of_In, Hin.
Qed.

(** X13: on hits that all have an id and are of pairwise different
    entities, the de-duplication changes nothing: it returns what the
    plain loop of the text and audio endpoints returns, every hit
    joined in order. *)
Theorem dedup_of_distinct_hits_is_plain_join (c : Cache)
  (hits : list ScoredPoint) (ty : string) :
  Forall (fun h => is_None (hit_id h) = false) hits ->
  distinct_ids (map hit_id hits) ->
  get_unique_birds_from_results c hits ty = join_each c ty hits.
Proof.
  intros Hn Hd.
  now rewrite get_unique_birds_refines, first_occurrences_of_distinct.
Qed.

Lemma dedup_of_distinct_hits_is_plain_join_witness :
  get_unique_birds_from_results Sample.small_cache
    [Sample.hit_of 1 Sample.half; Sample.hit_of 7 Sample.seven_eighths]
    "image" =
  join_each Sample.small_cache "image"
    [Sample.hit_of 1 Sample.half; Sample.hit_of 7 Sample.seven_eighths].
Proof.
  apply dedup_of_distinct_hits_is_plain_join.
  - repeat constructor.
  - simpl. repeat constructor.
Defined.

(** X14: a refresh is a fresh start: whatever the cache held before,
    after [refresh_cache] the process is exactly the process that the
    start-up load would give on the same store, and the counts of the
    response are the sizes of that cache. *)
Theorem refresh_is_fresh_startup (st : Store) (c : Cache) :
  snd (refresh_cache {| store := st; cache := c |}) = startup st /\
  count_text (fst (refresh_cache {| store := st; cache := c |})) =
    length (ALL_TEXT_DATA (cache (startup st))) /\
  count_images (fst (refresh_cache {| store := st; cache := c |})) =
    length (ALL_IMAGE_DATA (cache (startup st))) /\
  count_audio (fst (refresh_cache {| store := st; cache := c |})) =
    length (ALL_AUDIO_DATA (cache (startup st))).
Proof. repeat split. Qed.

Lemma replace_removes (old new : ascii) (s : string) :
  old <> new -> contains_char old (replace old new s) = false.
Proof.
  intros Hne. induction s as [|ch s IH]; simpl; [reflexivity|].
  rewrite IH, orb_false_r.
  destruct (Ascii.eqb_spec ch old) as [->|Hc].
  - now apply Ascii.eqb_neq.
  - now apply Ascii.eqb_neq.
Qed.

Lemma replace_length (old new : ascii) (s : string) :
  String.length (replace old new s) = String.length s.
Proof. induction s as [|ch s IH]; simpl; congruence. Qed.

Lemma wiki_url_no_space (text_info : Payload) (u : string) :
  wiki_url text_info = Ok u ->
  contains_char space u = false /\
  (u = EmptyString \/
   exists name cached,
     u = wiki_base_url +:+ name /\
     text_info !! "species_name" = Some (VStr cached) /\
     String.length name = String.length cached).
Proof.
  unfold wiki_url, payload_get, payload_get_default.
  destruct (text_info !! "species_name") as [v|] eqn:Hv; simpl;
    [|intros [= <-]; auto].
  destruct (truthy v); [|intros [= <-]; auto].
  destruct v; simpl; try discriminate. intros [= <-]. split.
  - rewrite contains_char_app, replace_removes by discriminate.
    reflexivity.
  - right. exists (replace space underscore s), s.
    split; [reflexivity|]. split; [reflexivity|]. apply replace_length.
Qed.

(** X15: the [url] of a joined result never contains a space: it is
    empty, or the Wikipedia base URL followed by a name as long as the
    cached species name, in which every space has become an
    underscore. *)
Theorem joined_url_has_no_space (c : Cache) (hit : ScoredPoint)
  (ty : string) (r : ComprehensiveResult) :
  create_comprehensive_result c hit ty = Ok (Some r) ->
  contains_char space (url r) = false /\
  (url r = EmptyString \/
   exists name cached,
     url r = wiki_base_url +:+ name /\
     text_info_of c (bird_id r) !! "species_name" = Some (VStr cached) /\
     String.length name = String.length cached).
Proof.
  intros H. apply create_Some_inv in H as (_ & _ & _ & Hu & _).
  now apply wiki_url_no_space.
Qed.

Lemma joined_url_has_no_space_witness :
  exists r,
    create_comprehensive_result Sample.small_cache
      (Sample.hit_of 1 Sample.half) "text" = Ok (Some r) /\
    contains_char space (url r) = false /\
    url r = "https://en.wikipedia.org/wiki/House_Sparrow"%string.
Proof.
  eexists. split; [vm_compute; reflexivity|].
  match goal with
  | |- contains_char space (url ?r) = false /\ _ =>
      destruct (joined_url_has_no_space Sample.small_cache
                  (Sample.hit_of 1 Sample.half) "text" r) as [Hs _];
        [vm_compute; reflexivity|]
  end.
  split; [exact Hs|reflexivity].
Defined.

(** ** The audio cache, and the cache seen through the join *)

Lemma with_audio_url_good_clip (p : Payload) :
  bad_clip_path p = false -> with_audio_url p = Ok (audio_payload p).
Proof.
  intros Hb. unfold audio_payload.
  destruct (with_audio_url p) as [p'|e] eqn:Hw; [reflexivity|].
  apply (proj1 (proj2 (playback_url_step_cases p))) in Hw as [_ Hw].
  congruence.
Qed.

(** The loop of the audio loader, seen from the key [id]. *)
Lemma audio_loop_lookup (points : list Record_) (id : value)
  (d : pydict (list Payload)) :
  Forall (fun p => plain_key (record_id p) = true /\
                   bad_clip_path (record_payload p) = false) points ->
  Forall (fun k' => plain_key k' = true) (map fst d) ->
  plain_key id = true ->
  exists d',
    for_each
      (fun audio_data point =>
         let bird_id := payload_get (record_payload point) "bird_id" in
         _ ← dict_contains audio_data bird_id;
         p ← with_audio_url (record_payload point);
         dict_append audio_data bird_id p)
      points d = Ok d' /\
    find_key id d' =
      match map audio_payload (records_of id points) with
      | [] => find_key id d
      | g => Some (default [] (find_key id d) ++ g)
      end.
Proof.
  intros Hp. revert d.
  induction Hp as [|p points [Hk Hc] Hp IH]; intros d Hd Hid.
  - exists d. split; reflexivity.
  - cbn [for_each]. cbv zeta. fold (record_id p). unfold dict_append.
    rewrite (with_audio_url_good_clip _ Hc).
    destruct (update_lookup d (record_id p) id
                (fun l => l ++ [audio_payload (record_payload p)])
                [audio_payload (record_payload p)]
                Hd Hk Hid) as (present & -> & Hd' & Hf).
    cbv zeta in Hd', Hf. cbn [mbind result_bind mret result_ret].
    destruct (IH _ Hd' Hid) as (d' & Hloop & Hf').
    exists d'. split; [exact Hloop|]. rewrite Hf', Hf.
    unfold records_of. cbn [List.filter].
    destruct (py_eq (record_id p) id); cbn [map].
    + destruct (map audio_payload _) as [|g gs]; simpl.
      * now destruct (find_key id d).
      * destruct (find_key id d); simpl; now rewrite <- ?app_assoc.
    + reflexivity.
Qed.

(** X16: on a page whose records have plain ids and whose clip paths
    are strings (or missing), the audio loader groups the records by id
    in page order, each stored with its playback URL added: the entry
    of an id lists the page's records of that id, none lost, and an id
    without records has no entry. *)
Theorem audio_loader_groups_in_page_order (st : Store)
  (points : list Record_) (id : value) :
  respond st (length (calls st)) "bird_audio_search" 1000 = Ok points ->
  Forall (fun p => plain_key (record_id p) = true /\
                   bad_clip_path (record_payload p) = false) points ->
  plain_key id = true ->
  find_key id (fst (get_all_audio_data st)) =
    match map audio_payload (records_of id points) with
    | [] => None
    | g => Some g
    end.
Proof.
  intros Hr Hp Hid. unfold get_all_audio_data, scroll. simpl. rewrite Hr.
  cbn [mbind result_bind].
  destruct (audio_loop_lookup points id [] Hp (List.Forall_nil _) Hid)
    as (d' & Hloop & Hf).
  cbv zeta in Hloop. rewrite Hloop. simpl. exact Hf.
Qed.

Lemma audio_loader_groups_in_page_order_witness :
  find_key (VInt 3) (fst (get_all_audio_data SampleStore.steady)) =
    Some [<["audio_url" := VStr "http://localhost:8000/audio/wren_01.wav"]>
            (Sample.audio_record 3 "clips/wren_01.wav")] /\
  find_key (VInt 2) (fst (get_all_audio_data SampleStore.steady)) = None.
Proof.
  split.
  - rewrite (audio_loader_groups_in_page_order SampleStore.steady
               (SampleStore.catalogue "bird_audio_search") (VInt 3));
      [reflexivity|reflexivity|repeat constructor|reflexivity].
  - rewrite (audio_loader_groups_in_page_order SampleStore.steady
               (SampleStore.catalogue "bird_audio_search") (VInt 2));
      [reflexivity|reflexivity|repeat constructor|reflexivity].
Defined.

(** X17: after start-up on a page of image records with plain ids, the
    images of a joined result are the page's records of the hit's
    entity in page order, and the primary image is the first of them on
    the page (none when the page has no record of the entity),
    whatever their quality scores. *)
Theorem primary_image_is_first_on_page (st : Store) (points : list Record_)
  (hit : ScoredPoint) (ty : string) (r : ComprehensiveResult) :
  respond st (S (length (calls st))) "bird_image_search" 1000 = Ok points ->
  Forall (fun p => plain_key (record_id p) = true) points ->
  plain_key (hit_id hit) = true ->
  create_comprehensive_result (cache (startup st)) hit ty = Ok (Some r) ->
  images r = records_of (hit_id hit) points /\
  primary_image r = head (records_of (hit_id hit) points).
Proof.
  intros Hr Hp Hk Hc.
  apply create_Some_inv in Hc as (Hid & _ & _ & _ & _ & _ & Hi & Hpi & _).
  fold (hit_id hit) in Hid. rewrite Hid in Hi.
  assert (Himg : images r = records_of (hit_id hit) points).
  { rewrite Hi. unfold images_of.
    change (ALL_IMAGE_DATA (cache (startup st)))
      with (fst (get_all_image_data (snd (get_all_text_data st)))).
    rewrite (image_loader_lookup _ points (hit_id hit)); try assumption.
    - now destruct (records_of (hit_id hit) points).
    - rewrite get_all_text_data_calls, length_app. simpl.
      rewrite Nat.add_1_r. exact Hr. }
  split; [exact Himg|]. now rewrite Hpi, first_or_None_head, Himg.
Qed.

Lemma primary_image_is_first_on_page_witness :
  exists r,
    create_comprehensive_result (cache (startup SampleStore.steady))
      (Sample.hit_of 1 Sample.half) "image" = Ok (Some r) /\
    primary_image r = Some (Sample.image_record 1 "a.jpg" Sample.half).
Proof.
  eexists. split; [vm_compute; reflexivity|].
  match goal with
  | |- primary_image ?r = _ =>
      destruct (primary_image_is_first_on_page SampleStore.steady
                  (SampleStore.catalogue "bird_image_search")
                  (Sample.hit_of 1 Sample.half) "image" r) as [_ Hp];
        [reflexivity|repeat constructor|reflexivity
        |vm_compute; reflexivity|]
  end.
  rewrite Hp. reflexivity.
Defined.

Lemma join_each_raises (c : Cache) (ty : string) (hits : list ScoredPoint) :
  Exists (fun h => exists e, create_comprehensive_result c h ty = Raise e)
    hits ->
  exists e, join_each c ty hits = Raise e.
Proof.
  intros H. apply for_each_raises.
  eapply Exists_impl; [exact H|]. intros h [e He] s. exists e.
  unfold join_step. now rewrite He.
Qed.

(** X18: a hit whose join raises is not skipped: if the join of one hit
    of the store's answer raises, the text search and the audio search
    fail as a whole with status 500, also when the other hits could be
    joined. *)
Theorem raising_hit_fails_whole_search (b : Backend) (c : Cache)
  (content_type content : string) (limit : Z) (features : list spec_float)
  (hits : list ScoredPoint) :
  (embed_text b content = Ok features ->
   search b "bird_text_search" features limit = Ok hits ->
   Exists (fun h => exists e,
             create_comprehensive_result c h "text" = Raise e) hits ->
   search_by_text b c content limit = Raise (HTTPException 500)) /\
  (String.prefix "audio/" content_type = true ->
   extract_audio_features b content = Ok features ->
   search b "bird_audio_search" features limit = Ok hits ->
   Exists (fun h => exists e,
             create_comprehensive_result c h "audio" = Raise e) hits ->
   search_by_audio b c content_type content limit =
     Raise (HTTPException 500)).
Proof.
  split.
  - intros He Hs Hx. unfold search_by_text. rewrite He.
    cbn [mbind result_bind]. rewrite Hs. cbn [mbind result_bind].
    destruct (join_each_raises _ _ _ Hx) as [e ->]. reflexivity.
  - intros Hp He Hs Hx. unfold search_by_audio. rewrite Hp.
    cbn [mbind result_bind]. rewrite He. cbn [mbind result_bind].
    rewrite Hs. cbn [mbind result_bind].
    destruct (join_each_raises _ _ _ Hx) as [e ->]. reflexivity.
Qed.

Lemma raising_hit_fails_whole_search_witness :
  search_by_text SampleBackend3.birds_one_and_four
    SampleMalformed.numeric_name_cache "sparrow" 12 =
  Raise (HTTPException 500).
Proof.
  apply (proj1 (raising_hit_fails_whole_search
                  SampleBackend3.birds_one_and_four
                  SampleMalformed.numeric_name_cache "" "sparrow" 12 []
                  [Sample.hit_of 1 Sample.seven_eighths;
                   Sample.hit_of 4 Sample.half])).
  - reflexivity.
  - reflexivity.
  - apply Exists_cons_tl, Exists_cons_hd. exists AttributeError.
    vm_compute. reflexivity.
Defined.
